(** * Kuzzle JavaScript SDK: the data-collection wrapper and the security Profile

    A shallow embedding of [KuzzleDataCollection] (constructor and prototype
    methods) and of [Profile] (src/core/security/Profile.ts), together with
    the parts of the session object they call into, and the properties the
    specification states about them. *)

From stdpp Require Import gmap strings list.
From Stdlib Require Import ZArith Lia Ascii String.

Local Open Scope string_scope.
Local Open Scope list_scope.

(** ** JavaScript values *)

Module JS.

(** Heap locations: the identity of an object that is shared or mutated. *)
Abbreviation loc := positive (only parsing).

(** Values.  Object literals and arrays that are only built and handed on
    are immutable trees; objects whose identity matters (the session, a
    collection, a headers object, a room) live in the heap and are
    referred to by their location.  [VFun f] is a caller's function, known by its
    identity; [VDoc] is an instance of KuzzleDocument, given by the
    arguments of its constructor and its [version] property. *)
#[local] Unset Elimination Schemes.
Inductive value : Type :=
| VUndef
| VNull
| VBool (b : bool)
| VNum (n : Z)
| VStr (s : string)
| VArr (xs : list value)
| VObj (fs : list (string * value))
| VFun (f : nat)
| VDoc (dataCollection : loc) (id content version : value).
#[local] Set Elimination Schemes.

Inductive exn : Type :=
| TypeError
| SyntaxError
| Error (message : string).

Inductive result (A : Type) : Type :=
| Ok (a : A)
| Throw (e : exn).
Arguments Ok {A} a.
Arguments Throw {A} e.

(** ToBoolean *)
Definition truthy (v : value) : bool :=
  match v with
  | VUndef | VNull => false
  | VBool b => b
  | VNum n => negb (n =? 0)%Z
  | VStr s => negb (String.eqb s "")
  | _ => true
  end.

(** [typeof v === 'function'] *)
Definition is_function (v : value) : bool :=
  match v with VFun _ => true | _ => false end.

(** [typeof v === 'string'] *)
Definition is_string (v : value) : bool :=
  match v with VStr _ => true | _ => false end.

Fixpoint assoc (k : string) (fs : list (string * value)) : option value :=
  match fs with
  | [] => None
  | (k', v) :: fs' => if String.eqb k k' then Some v else assoc k fs'
  end.

(** [o[k] = v] on an object literal: an existing key keeps its place. *)
Fixpoint set_field (k : string) (v : value) (fs : list (string * value))
  : list (string * value) :=
  match fs with
  | [] => [(k, v)]
  | (k', v') :: fs' =>
      if String.eqb k k' then (k, v) :: fs' else (k', v') :: set_field k v fs'
  end.

(** [v.k] for a [v] that is neither null nor undefined.  Of a document,
    the property the collection code sets, [version], can be read. *)
Definition get (v : value) (k : string) : value :=
  match v with
  | VObj fs => default VUndef (assoc k fs)
  | VDoc _ _ _ version => if String.eqb k "version" then version else VUndef
  | _ => VUndef
  end.

(** [v.k]: a TypeError on null and undefined. *)
Definition getprop (v : value) (k : string) : result value :=
  match v with
  | VUndef | VNull => Throw TypeError
  | _ => Ok (get v k)
  end.

End JS.
Export JS.

(** ** Profile (src/core/security/Profile.ts) *)

Module Profile.

(** An own property with its attributes. *)
Record descriptor : Type := Descriptor {
  d_value : value;
  d_enumerable : bool;
  d_writable : bool;
  d_configurable : bool
}.

(** A Profile instance: its own properties, in creation order. *)
Definition instance := list (string * descriptor).

Fixpoint own (k : string) (o : instance) : option descriptor :=
  match o with
  | [] => None
  | (k', d) :: o' => if String.eqb k k' then Some d else own k o'
  end.

Fixpoint replace (k : string) (d : descriptor) (o : instance) : instance :=
  match o with
  | [] => []
  | (k', d') :: o' =>
      if String.eqb k k' then (k', d) :: o' else (k', d') :: replace k d o'
  end.

(** [Reflect.defineProperty(o, k, {value: v})]: a new property has the
    attributes left out set to false; an existing one keeps its attributes
    and takes the value if it is configurable or writable, and the object
    is left as it is otherwise. *)
Definition defineProperty (o : instance) (k : string) (v : value) : instance :=
  match own k o with
  | None => o ++ [(k, Descriptor v false false false)]
  | Some d =>
      if d_configurable d || d_writable d
      then replace k (Descriptor v (d_enumerable d) (d_writable d) (d_configurable d)) o
      else o
  end.

(** [o.k = v] in strict code: a new property is enumerable, writable and
    configurable; writing a property that is not writable is a TypeError. *)
Definition assign (o : instance) (k : string) (v : value) : result instance :=
  match own k o with
  | None => Ok (o ++ [(k, Descriptor v true true true)])
  | Some d =>
      if d_writable d
      then Ok (replace k (Descriptor v (d_enumerable d) true (d_configurable d)) o)
      else Throw TypeError
  end.

(** [o.k] *)
Definition read (o : instance) (k : string) : value :=
  match own k o with
  | Some d => d_value d
  | None => VUndef
  end.

(** [Object.keys(o)] *)
Definition keys (o : instance) : list string :=
  map fst (filter (fun p => d_enumerable (snd p) = true) o).

(** A parameter with the default initialiser [= null]. *)
Definition default_null (v : value) : value :=
  match v with VUndef => VNull | _ => v end.

(** [constructor (kuzzle, _id = null, content = null)] *)
Definition new (kuzzle _id content : value) : result instance :=
  let _id := default_null _id in
  let content := default_null content in
  let this := defineProperty [] "_kuzzle" kuzzle in
  match assign this "_id" _id with
  | Throw e => Throw e
  | Ok this =>
      match assign this "rateLimit"
              (if truthy content && truthy (get content "rateLimit")
               then get content "rateLimit" else VNum 0) with
      | Throw e => Throw e
      | Ok this =>
          assign this "policies"
            (if truthy content && truthy (get content "policies")
             then get content "policies" else VArr [])
      end
  end.

(** [protected get kuzzle ()] *)
Definition kuzzle (this : instance) : value := read this "_kuzzle".

(** [serialize ()] *)
Definition serialize (this : instance) : value :=
  VObj [ ("_id", read this "_id");
         ("rateLimit", read this "rateLimit");
         ("policies", read this "policies") ].

End Profile.

(** ** The store: heap objects, the session's request table and room
    registry, and the record of calls made to the outside *)

Module Store.

(** The session object (Kuzzle instance): the part of it the collection
    code reads. *)
Record session_obj : Type := Session {
  k_headers : loc;          (* kuzzle.headers, an object *)
  bluebird : value          (* kuzzle.bluebird, undefined when absent *)
}.

(** A KuzzleDataCollection instance.  [collection] and [kuzzle] are
    defined without [writable]; [headers] is writable.  [own_methods] are
    the function properties added to the instance by promisifyAll. *)
Record collection_obj : Type := Collection {
  collection : value;
  kuzzle : loc;
  headers : loc;
  own_methods : list string
}.

(** A KuzzleRoom handle. *)
Record room_obj : Type := RoomHandle {
  rh_collection : loc;
  rh_options : value;
  rh_subscription : option (nat * nat)   (* roomId, callbackId *)
}.

(** A KuzzleDataMapping instance. *)
Record mapping_obj : Type := Mapping {
  m_collection : loc;
  m_mapping : value
}.

Inductive cell : Type :=
| CPlain (fs : list (string * value))
| CKuzzle (k : session_obj)
| CCollection (c : collection_obj)
| CRoom (r : room_obj)
| CMapping (m : mapping_obj).

(** The function handed to [kuzzle.query] as its last argument: the
    caller's own argument, or one of the closures the collection methods
    build around it. *)
Inductive callback : Type :=
| CbArg (cb : value)
| CbSearch (self : loc) (cb : value)
| CbCount (cb : value)
| CbDocument (self : loc) (cb : value)
| CbDelete (action : string) (data : value) (cb : value)
| CbUpdate (self : loc) (cb : value)
| CbOther (tag : string) (cb : value).

(** One call [kuzzle.query(collection, controller, action, query, options, cb)]. *)
Record QueryCall : Type := Query {
  q_collection : value;
  q_controller : string;
  q_action : string;
  q_query : value;
  q_options : value;
  q_cb : callback
}.

(** A call of a caller's function. *)
Inductive invocation : Type :=
| Invoke (f : nat) (args : list value).

Inductive room_state : Type :=
| SUBSCRIBING | ACTIVE | RESUBSCRIBING | CANCELLED.

Record Room : Type := MkRoom {
  room_collection : value;
  room_filters : value;
  room_selfNotify : bool;
  room_callbacks : list (nat * value);   (* callbackId, handler; in registration order *)
  room_status : room_state;
  room_channel : option string
}.

Inductive net_call : Type :=
| NetSubscribe (roomId : nat)
| NetUnsubscribe (roomId : nat).

Record world : Type := World {
  heap : gmap positive cell;
  queries : list (loc * QueryCall);      (* calls received by kuzzle.query, oldest first *)
  pending : gmap nat QueryCall;          (* RequestTracker: requestId to pending request *)
  next_request : nat;
  rooms : gmap nat Room;                 (* SubscriptionRegistry: roomId to room *)
  channels : gmap string nat;            (* channel to roomId *)
  next_callback : nat;
  network : list net_call;               (* network subscribe and unsubscribe calls, oldest first *)
  invoked : list invocation              (* calls of the callers' functions, oldest first *)
}.

Definition set_heap (h : gmap positive cell) (w : world) : world :=
  World h (queries w) (pending w) (next_request w) (rooms w) (channels w)
        (next_callback w) (network w) (invoked w).

Definition set_invoked (i : list invocation) (w : world) : world :=
  World (heap w) (queries w) (pending w) (next_request w) (rooms w) (channels w)
        (next_callback w) (network w) i.


(** Computations on the store that may throw. *)
Definition M (A : Type) : Type := world -> result (A * world).

Definition ret {A} (a : A) : M A := fun w => Ok (a, w).

Definition bind {A B} (m : M A) (k : A -> M B) : M B :=
  fun w => match m w with
           | Ok (a, w') => k a w'
           | Throw e => Throw e
           end.

Definition throw {A} (e : exn) : M A := fun _ => Throw e.

Definition lift {A} (r : result A) : M A :=
  fun w => match r with Ok a => Ok (a, w) | Throw e => Throw e end.

(** [new]: a fresh location for the object. *)
Definition alloc (c : cell) : M loc :=
  fun w => let l := fresh (dom (heap w)) in
           Ok (l, set_heap (<[l := c]> (heap w)) w).

Definition the_session (k : loc) : M session_obj :=
  fun w => match heap w !! k with
           | Some (CKuzzle s) => Ok (s, w)
           | _ => Throw TypeError
           end.

Definition the_collection (this : loc) : M collection_obj :=
  fun w => match heap w !! this with
           | Some (CCollection c) => Ok (c, w)
           | _ => Throw TypeError
           end.

Definition the_room (r : loc) : M room_obj :=
  fun w => match heap w !! r with
           | Some (CRoom h) => Ok (h, w)
           | _ => Throw TypeError
           end.

(** The fields of the plain object at [l]. *)
Definition the_object (l : loc) : M (list (string * value)) :=
  fun w => match heap w !! l with
           | Some (CPlain fs) => Ok (fs, w)
           | _ => Throw TypeError
           end.

Definition store (l : loc) (c : cell) : M unit :=
  fun w => Ok (tt, set_heap (<[l := c]> (heap w)) w).

(** Every collection and every session has a headers object of its own:
    the objects exist, no two collections share one, and no collection
    shares one with a session. *)
Definition own_headers (w : world) : Prop :=
  (forall l c, heap w !! l = Some (CCollection c) ->
               exists fs, heap w !! headers c = Some (CPlain fs))
  /\ (forall k s, heap w !! k = Some (CKuzzle s) ->
                  exists fs, heap w !! k_headers s = Some (CPlain fs))
  /\ (forall l1 l2 c1 c2,
        heap w !! l1 = Some (CCollection c1) ->
        heap w !! l2 = Some (CCollection c2) ->
        headers c1 = headers c2 -> l1 = l2)
  /\ (forall l c k s,
        heap w !! l = Some (CCollection c) ->
        heap w !! k = Some (CKuzzle s) ->
        headers c <> k_headers s).

(** The read-only fields of the collections of [w] are the same in [w']. *)
Definition same_identity (w w' : world) : Prop :=
  forall l c, heap w !! l = Some (CCollection c) ->
              exists c', heap w' !! l = Some (CCollection c')
                         /\ collection c' = collection c
                         /\ kuzzle c' = kuzzle c.

(** [this] is a collection [c] of the session [s], whose headers object
    has the fields [hs]. *)
Definition is_collection (w : world) (this : loc) (c : collection_obj)
  (s : session_obj) (hs : list (string * value)) : Prop :=
  heap w !! this = Some (CCollection c)
  /\ heap w !! kuzzle c = Some (CKuzzle s)
  /\ heap w !! headers c = Some (CPlain hs).

(** A computation that keeps the read-only fields of every collection. *)
Definition Keeps {A} (m : M A) : Prop :=
  forall w a w', m w = Ok (a, w') -> same_identity w w'.

End Store.
Export Store.

Notation "'let!' x ':=' m 'in' k" := (bind m (fun x => k))
  (at level 10, x name, m at level 100, k at level 200).
Notation "m ';;;' k" := (bind m (fun _ => k))
  (at level 100, k at level 200, right associativity).

(** The functions of this repository that the collection code calls and
    whose definitions are in other files. *)
Class Collaborators : Type := {
  (** [kuzzle.addHeaders(query, headers)]: the query with the headers attached *)
  addHeaders : value -> value -> value;
  (** [document.toJSON()] of a KuzzleDocument: the fields of the object it returns *)
  toJSON : value -> list (string * value);
  (** the room identifier derived from the collection, the filters and the subscribe-to-self flag *)
  roomId : value -> value -> bool -> nat;
  (** the subscribe-to-self flag a KuzzleRoom reads from its options *)
  subscribeToSelf : value -> bool;
  (** [KuzzleDataMapping.refresh(options, cb)] and [apply(options, cb)], by the
      requests they forward to [kuzzle.query], given the collection name,
      its headers and the mapping *)
  mapping_refresh : value -> value -> value -> value -> value -> result (list QueryCall);
  mapping_apply : value -> value -> value -> value -> value -> result (list QueryCall);
  (** the body of a callback built by KuzzleDataMapping *)
  run_other : string -> value -> value -> value -> result (list invocation)
}.

(** ** JSON round trip *)

Module JSON.
Section with_collaborators.
Context `{Collaborators}.

(** What [JSON.stringify] leaves out of an object and writes as null in
    an array. *)
Definition unserialisable (v : value) : bool :=
  match v with VUndef | VFun _ => true | _ => false end.

(** [JSON.parse(JSON.stringify(v))] for a [v] that has a JSON text: the
    same data in new objects.  A KuzzleDocument is written through its
    [toJSON], whose result is taken as it is. *)
Fixpoint copy (v : value) : value :=
  match v with
  | VArr xs =>
      VArr (map (fun x => if unserialisable x then VNull else copy x) xs)
  | VObj fs =>
      VObj ((fix fields (fs : list (string * value)) : list (string * value) :=
               match fs with
               | [] => []
               | (k, x) :: fs' =>
                   if unserialisable x then fields fs'
                   else (k, copy x) :: fields fs'
               end) fs)
  | VDoc _ _ _ _ => VObj (toJSON v)
  | _ => v
  end.

Definition copy_fields (fs : list (string * value)) : list (string * value) :=
  match copy (VObj fs) with
  | VObj fs' => fs'
  | _ => []
  end.

(** Values that are JSON data: no undefined, no function, no class
    instance anywhere inside. *)
Fixpoint is_data (v : value) : bool :=
  match v with
  | VUndef | VFun _ | VDoc _ _ _ _ => false
  | VArr xs => forallb is_data xs
  | VObj fs => forallb (fun p => is_data (snd p)) fs
  | _ => true
  end.

End with_collaborators.
End JSON.

(** ** The functions the collection methods hand to [kuzzle.query] *)

Module Closures.
Section with_collaborators.
Context `{Collaborators}.

(** [KuzzleDataCollection.prototype.documentFactory], on the location of
    its receiver. *)
Definition documentFactory (this : loc) (id content : value) : result value :=
  match getprop content "_source" with
  | Throw e => Throw e
  | Ok source =>
      let body := if truthy source then source else content in
      Ok (if truthy (get content "_version")
          then VDoc this id body (get content "_version")
          else VDoc this id body VUndef)
  end.

(** [cb(args)] *)
Definition call (cb : value) (args : list value) : result (list invocation) :=
  match cb with
  | VFun f => Ok [Invoke f args]
  | _ => Throw TypeError
  end.

(** [result.hits.hits.forEach(doc => documents.push(self.documentFactory(doc._id, doc)))] *)
Fixpoint documents_of (self : loc) (hits : list value) : result (list value) :=
  match hits with
  | [] => Ok []
  | doc :: hits' =>
      match getprop doc "_id" with
      | Throw e => Throw e
      | Ok id =>
          match documentFactory self id doc with
          | Throw e => Throw e
          | Ok d =>
              match documents_of self hits' with
              | Throw e => Throw e
              | Ok ds => Ok (d :: ds)
              end
          end
      end
  end.

(** The bodies of the functions handed to [kuzzle.query], run on
    [(error, result)]. *)
Definition run_callback (c : callback) (error result : value)
  : JS.result (list invocation) :=
  match c with
  | CbArg cb => call cb [error; result]
  | CbSearch self cb =>
      if truthy error then call cb [error]
      else
        match getprop result "hits" with
        | Throw e => Throw e
        | Ok hits =>
            match getprop hits "hits" with
            | Ok (VArr docs) =>
                match documents_of self docs with
                | Throw e => Throw e
                | Ok documents =>
                    call cb [VNull; VObj [("total", get hits "total");
                                          ("documents", VArr documents)]]
                end
            | Ok _ => Throw TypeError
            | Throw e => Throw e
            end
        end
  | CbCount cb =>
      if truthy error then call cb [error]
      else
        match getprop result "count" with
        | Throw e => Throw e
        | Ok n => call cb [VNull; n]
        end
  | CbDocument self cb =>
      if truthy error then call cb [error]
      else
        match getprop result "_id" with
        | Throw e => Throw e
        | Ok id =>
            match documentFactory self id result with
            | Throw e => Throw e
            | Ok d => call cb [VNull; d]
            end
        end
  | CbDelete action data cb =>
      if truthy error then call cb [error]
      else if String.eqb action "delete" then
        match getprop data "_id" with
        | Throw e => Throw e
        | Ok id => call cb [VNull; VArr [id]]
        end
      else
        match getprop result "ids" with
        | Throw e => Throw e
        | Ok ids => call cb [VNull; ids]
        end
  | CbUpdate self cb =>
      if truthy error then call cb [error]
      else
        match getprop result "_id" with
        | Throw e => Throw e
        | Ok id => call cb [VNull; VDoc self id VUndef VUndef]
        end
  | CbOther tag cb => run_other tag cb error result
  end.

Definition is_nullish (v : value) : bool :=
  match v with VUndef | VNull => true | _ => false end.

(** A response the function registered for it can read: the search
    result has [hits.hits], an array of documents; the other results are
    objects; the request of a delete by id is an object. *)
Definition readable (c : callback) (result : value) : bool :=
  match c with
  | CbArg _ => true
  | CbSearch _ _ =>
      negb (is_nullish result)
      && negb (is_nullish (get result "hits"))
      && match get (get result "hits") "hits" with
         | VArr docs => forallb (fun doc => negb (is_nullish doc)) docs
         | _ => false
         end
  | CbCount _ | CbDocument _ _ | CbUpdate _ _ => negb (is_nullish result)
  | CbDelete action data _ =>
      if String.eqb action "delete" then negb (is_nullish data)
      else negb (is_nullish result)
  | CbOther _ _ => false
  end.

(** The arguments a failure hands to the caller's function: a closure of
    the collection hands on the error alone, a caller's function given
    to [kuzzle.query] as it is receives what the session passes. *)
Definition failure_arguments (c : callback) (error result : value) : list value :=
  match c with
  | CbArg _ => [error; result]
  | _ => [error]
  end.

End with_collaborators.
End Closures.

(** ** The session object *)

Module Kuzzle.
Section with_collaborators.
Context `{Collaborators}.

(** Modelled from the spec: [kuzzle.callbackRequired] is not under src/.
    The methods that document their callback as mandatory call it first
    with their name and the callback; it throws unless it is given a
    function. *)
Definition callbackRequired (errorMessagePrefix : string) (callback : value) : M unit :=
  if is_function callback then ret tt else throw (Error errorMessagePrefix).


(** Modelled from the spec: the RequestTracker is not under src/.  Its
    [send] assigns a requestId and records a PendingRequest.  The
    connection state and the offline queue are left out: a request is
    recorded as sent. *)
Definition sent (k : loc) (q : QueryCall) (w : world) : world :=
  World (heap w) (queries w ++ [(k, q)])
        (<[next_request w := q]> (pending w)) (S (next_request w))
        (rooms w) (channels w) (next_callback w) (network w) (invoked w).

(** Modelled from the spec: [kuzzle.query] is not under src/.
    [query(collection, controller, action, payload, options, callback)]
    routes through RequestTracker. *)
Definition query (k : loc) (q : QueryCall) : M unit :=
  the_session k ;;;
  fun w => Ok (tt, sent k q w).




(** Modelled from the spec: [kuzzle.setHeaders] is not under src/; the
    comment above [KuzzleDataCollection.prototype.setHeaders] describes
    it.  It acts on its receiver's [headers]: with [replace] it replaces
    the current headers with the provided content, otherwise it appends
    the content to the current headers, replacing the values of keys
    that exist already.  The content is an object literal; anything else
    is refused. *)
Definition setHeaders (this : loc) (content replace : value) : M unit :=
  let! c := the_collection this in
  match content with
  | VObj fs =>
      if truthy replace then
        let! h := alloc (CPlain fs) in
        store this (CCollection (Collection (collection c) (kuzzle c) h (own_methods c)))
      else
        let! old := the_object (headers c) in
        store (headers c)
              (CPlain (fold_left (fun acc p => set_field (fst p) (snd p) acc) fs old))
  | _ => throw (Error "Expected a content object")
  end.


End with_collaborators.
End Kuzzle.

(** ** The room registry and the notification router *)

Module Registry.
Section with_collaborators.
Context `{Collaborators}.

Definition set_registry (r : gmap nat Room) (c : gmap string nat) (next : nat)
  (n : list net_call) (w : world) : world :=
  World (heap w) (queries w) (pending w) (next_request w) r c next n (invoked w).

Definition add_callback (cbid : nat) (handler : value) (r : Room) : Room :=
  MkRoom (room_collection r) (room_filters r) (room_selfNotify r)
         (room_callbacks r ++ [(cbid, handler)]) (room_status r) (room_channel r).

Definition is_active (r : Room) : bool :=
  match room_status r with ACTIVE => true | _ => false end.

(** A new Room in SUBSCRIBING, with the network subscribe call for it. *)
Definition created (collection filters : value) (selfNotify : bool)
  (handler : value) (w : world) : world :=
  let id := roomId collection filters selfNotify in
  set_registry (<[id := MkRoom collection filters selfNotify
                               [(next_callback w, handler)] SUBSCRIBING None]> (rooms w))
               (channels w) (S (next_callback w))
               (network w ++ [NetSubscribe id]) w.

(** Modelled from the spec: the SubscriptionRegistry is not under src/.
    [subscribe(collection, filters, selfNotify, handler)] computes the
    roomId; if a Room with that id exists and is ACTIVE, it adds the
    handler to its callback set and returns (no network call).
    Otherwise it creates a Room in SUBSCRIBING and issues exactly one
    network subscribe call.  The handler is given the next callbackId. *)
Definition subscribed (collection filters : value) (selfNotify : bool)
  (handler : value) (w : world) : world :=
  let id := roomId collection filters selfNotify in
  match rooms w !! id with
  | Some r =>
      if is_active r
      then set_registry (<[id := add_callback (next_callback w) handler r]> (rooms w))
                        (channels w) (S (next_callback w)) (network w) w
      else created collection filters selfNotify handler w
  | None => created collection filters selfNotify handler w
  end.

(** [subscribe] returns the roomId and the callbackId of the handler. *)
Definition subscribe (collection filters : value) (selfNotify : bool)
  (handler : value) : M (nat * nat) :=
  fun w => Ok ((roomId collection filters selfNotify, next_callback w),
               subscribed collection filters selfNotify handler w).

(** Modelled from the spec: on the backend's acknowledgment the room
    becomes ACTIVE and the channel the backend assigned is recorded. *)
Definition acknowledged (id : nat) (channel : string) (w : world) : world :=
  match rooms w !! id with
  | Some r =>
      match room_status r with
      | SUBSCRIBING | RESUBSCRIBING =>
          set_registry
            (<[id := MkRoom (room_collection r) (room_filters r)
                            (room_selfNotify r) (room_callbacks r)
                            ACTIVE (Some channel)]> (rooms w))
            (<[channel := id]> (channels w)) (next_callback w) (network w) w
      | _ => w
      end
  | None => w
  end.

Definition acknowledge (id : nat) (channel : string) : M unit :=
  fun w => Ok (tt, acknowledged id channel w).

(** Modelled from the spec: [unsubscribe(roomId, callbackId)] removes one
    callback; if the set becomes empty it issues a network unsubscribe
    and discards the Room. *)
Definition unsubscribed (id cbid : nat) (w : world) : world :=
  match rooms w !! id with
  | Some r =>
      let cbs := filter (fun p => fst p <> cbid) (room_callbacks r) in
      match cbs with
      | [] =>
          set_registry (base.delete id (rooms w))
                       (match room_channel r with
                        | Some ch => base.delete ch (channels w)
                        | None => channels w
                        end)
                       (next_callback w)
                       (network w ++ [NetUnsubscribe id]) w
      | _ =>
          set_registry
            (<[id := MkRoom (room_collection r) (room_filters r)
                            (room_selfNotify r) cbs
                            (room_status r) (room_channel r)]> (rooms w))
            (channels w) (next_callback w) (network w) w
      end
  | None => w
  end.

Definition unsubscribe (id cbid : nat) : M unit :=
  fun w => Ok (tt, unsubscribed id cbid w).

(** One handler run on a notification: an error in it is not passed on. *)
Definition run_handler (payload : value) (h : nat * value) : list invocation :=
  match Closures.call (snd h) [payload] with
  | Ok calls => calls
  | Throw _ => []
  end.

(** Modelled from the spec: the NotificationRouter.  The inbound message
    carries a channel; the router looks up the Room whose channel
    matches; if found and ACTIVE it invokes every registered handler
    with the payload, in registration order; otherwise the notification
    is dropped. *)
Definition notified (channel : string) (payload : value) (w : world) : world :=
  match channels w !! channel with
  | Some id =>
      match rooms w !! id with
      | Some r =>
          if is_active r && bool_decide (room_channel r = Some channel)
          then set_invoked
                 (invoked w ++ flat_map (run_handler payload) (room_callbacks r)) w
          else w
      | None => w
      end
  | None => w
  end.

Definition notify (channel : string) (payload : value) : M unit :=
  fun w => Ok (tt, notified channel payload w).

End with_collaborators.
End Registry.

(** ** KuzzleRoom *)

Module KuzzleRoom.
Section with_collaborators.
Context `{Collaborators}.

(** Modelled from the spec: KuzzleRoom is not under src/.  It is the room
    handle [subscribe] returns: it keeps the collection it was made for
    and its options. *)
Definition new (collection : loc) (options : value) : M loc :=
  alloc (CRoom (RoomHandle collection options None)).

(** Modelled from the spec: [renew(filters, cb)] subscribes the handle
    through the registry and returns the handle. *)
Definition renew (this : loc) (filters cb : value) : M loc :=
  let! h := the_room this in
  let! c := the_collection (rh_collection h) in
  let! s := Registry.subscribe (collection c) filters
              (subscribeToSelf (rh_options h)) cb in
  store this (CRoom (RoomHandle (rh_collection h) (rh_options h) (Some s))) ;;;
  ret this.

(** Modelled from the spec: [unsubscribe()] cancels the subscription
    made through the handle. *)
Definition unsubscribe (this : loc) : M loc :=
  let! h := the_room this in
  match rh_subscription h with
  | Some (id, cbid) =>
      Registry.unsubscribe id cbid ;;;
      store this (CRoom (RoomHandle (rh_collection h) (rh_options h) None)) ;;;
      ret this
  | None => ret this
  end.

End with_collaborators.
End KuzzleRoom.

(** ** bluebird *)

Module Bluebird.

Definition ident_start (a : ascii) : bool :=
  let n := nat_of_ascii a in
  ((65 <=? n)%nat && (n <=? 90)%nat) || ((97 <=? n)%nat && (n <=? 122)%nat)
  || (n =? 36)%nat || (n =? 95)%nat.

Definition ident_part (a : ascii) : bool :=
  let n := nat_of_ascii a in
  ident_start a || ((48 <=? n)%nat && (n <=? 57)%nat).

Fixpoint all_chars (p : ascii -> bool) (s : string) : bool :=
  match s with
  | EmptyString => true
  | String a s' => p a && all_chars p s'
  end.

Definition is_identifier (s : string) : bool :=
  match s with
  | EmptyString => false
  | String a s' => ident_start a && all_chars ident_part s'
  end.

(** The library's default filter: an identifier that does not start with
    an underscore and is not [constructor]. *)
Definition default_filter (name : string) : bool :=
  is_identifier name
  && negb (match name with String "_"%char _ => true | _ => false end)
  && negb (String.eqb name "constructor").

(** [promisifyAll(target, {suffix, filter})]: for every function-valued
    key of the target (its prototype chain included) that the filter
    accepts, a method [key ++ suffix] is added to the target, which is
    returned.  The result is the list of the names added. *)
Definition promisifyAll (keys : list string) (suffix : string)
  (filter : string -> bool -> bool) : list string :=
  map (fun k => String.append k suffix)
      (List.filter (fun k => filter k (default_filter k)) keys).

End Bluebird.

(** ** KuzzleDataCollection *)

Module KuzzleDataCollection.
Section with_collaborators.
Context `{Collaborators}.

(** What a method returns: an object of the heap, or a value. *)
Inductive returned : Type :=
| RObj (l : loc)
| RVal (v : value).

(** The function-valued keys of the prototype, in the order of the file. *)
Definition prototype : list string :=
  [ "constructor"; "advancedSearch"; "count"; "create"; "createDocument";
    "delete"; "deleteDocument"; "fetchDocument"; "fetchAllDocuments";
    "getMapping"; "publish"; "putMapping"; "replaceDocument"; "subscribe";
    "truncate"; "updateDocument"; "documentFactory"; "roomFactory";
    "dataMappingFactory"; "setHeaders" ].

(** The methods documented with a [responseCallback] parameter. *)
Definition asynchronous : list string :=
  [ "advancedSearch"; "count"; "create"; "createDocument"; "delete";
    "deleteDocument"; "fetchDocument"; "fetchAllDocuments"; "getMapping";
    "putMapping"; "replaceDocument"; "truncate"; "updateDocument" ].

Definition blacklist : list string := ["publish"; "setHeaders"; "subscribe"].

(** [blacklist.indexOf(name) === -1] *)
Definition not_blacklisted (name : string) : bool :=
  negb (existsb (String.eqb name) blacklist).

(** The [filter] option given to promisifyAll. *)
Definition promisify_filter (name : string) (passes : bool) : bool :=
  passes && not_blacklisted name.

(** The function-valued keys promisifyAll finds on an instance. *)
Definition function_keys (collection : value) : list string :=
  (if is_function collection then ["collection"] else []) ++ prototype.

(** [new KuzzleDataCollection(kuzzle, collection)] *)
Definition new (kuzzle : loc) (collection : value) : M loc :=
  let! k := the_session kuzzle in
  let! hs := the_object (k_headers k) in
  let! h := alloc (CPlain (JSON.copy_fields hs)) in
  let! this := alloc (CCollection (Collection collection kuzzle h [])) in
  if truthy (bluebird k) then
    store this (CCollection (Collection collection kuzzle h
                  (Bluebird.promisifyAll (function_keys collection) "Promise"
                                         promisify_filter))) ;;;
    ret this
  else ret this.

(** The methods of an instance: those of the prototype and its own. *)
Definition methods (c : collection_obj) : list string :=
  prototype ++ own_methods c.

(** [if (!cb && typeof options === 'function') { cb = options; options = null; }] *)
Definition shift (options cb : value) : value * value :=
  if negb (truthy cb) && is_function options then (VNull, options)
  else (options, cb).

(** [this] as a collection whose [kuzzle] is a session. *)
Definition self (this : loc) : M collection_obj :=
  let! c := the_collection this in
  the_session (kuzzle c) ;;;
  ret c.

(** [this.kuzzle.addHeaders(data, this.headers)] *)
Definition with_headers (c : collection_obj) (data : value) : M value :=
  let! hs := the_object (headers c) in
  ret (addHeaders data (VObj hs)).

Definition is_document (v : value) : bool :=
  match v with VDoc _ _ _ _ => true | _ => false end.

Definition advancedSearch (this : loc) (filters options cb : value) : M returned :=
  let (options, cb) := shift options cb in
  let! c := self this in
  Kuzzle.callbackRequired "KuzzleDataCollection.advancedSearch" cb ;;;
  let! query := with_headers c (VObj [("body", filters)]) in
  Kuzzle.query (kuzzle c)
    (Query (collection c) "read" "search" query options (CbSearch this cb)) ;;;
  ret (RObj this).

Definition count (this : loc) (filters options cb : value) : M returned :=
  let (options, cb) := shift options cb in
  let! c := self this in
  Kuzzle.callbackRequired "KuzzleDataCollection.count" cb ;;;
  let! query := with_headers c (VObj [("body", filters)]) in
  Kuzzle.query (kuzzle c)
    (Query (collection c) "read" "count" query options (CbCount cb)) ;;;
  ret (RObj this).

Definition create (this : loc) (options cb : value) : M returned :=
  let (options, cb) := shift options cb in
  let! c := self this in
  let! data := with_headers c (VObj []) in
  Kuzzle.query (kuzzle c)
    (Query (collection c) "write" "createCollection" data options (CbArg cb)) ;;;
  ret (RObj this).

Definition createDocument (this : loc) (document options cb : value) : M returned :=
  let (options, cb) := shift options cb in
  let data :=
    if is_document document then toJSON document
    else set_field "body" document [] in
  let action :=
    if truthy options
    then (if truthy (get options "updateIfExist") then "createOrUpdate" else "create")
    else "create" in
  let data := set_field "persist" (VBool true) data in
  let! c := self this in
  let! data := with_headers c (VObj data) in
  (if truthy cb then
     Kuzzle.query (kuzzle c)
       (Query (collection c) "write" action data options (CbDocument this cb))
   else
     Kuzzle.query (kuzzle c)
       (Query (collection c) "write" action data options (CbArg VUndef))) ;;;
  ret (RObj this).

Definition delete (this : loc) (options cb : value) : M returned :=
  let (options, cb) := shift options cb in
  let! c := self this in
  let! data := with_headers c (VObj []) in
  Kuzzle.query (kuzzle c)
    (Query (collection c) "admin" "deleteCollection" data options (CbArg cb)) ;;;
  ret (RObj this).

Definition deleteDocument (this : loc) (arg options cb : value) : M returned :=
  let data := if is_string arg then set_field "_id" arg [] else set_field "body" arg [] in
  let action := if is_string arg then "delete" else "deleteByQuery" in
  let (options, cb) := shift options cb in
  let! c := self this in
  let! data := with_headers c (VObj data) in
  (if truthy cb then
     Kuzzle.query (kuzzle c)
       (Query (collection c) "write" action data options (CbDelete action data cb))
   else
     Kuzzle.query (kuzzle c)
       (Query (collection c) "write" action data options (CbArg VUndef))) ;;;
  ret (RObj this).

Definition fetchDocument (this : loc) (documentId options cb : value) : M returned :=
  let (options, cb) := shift options cb in
  let! c := self this in
  Kuzzle.callbackRequired "KuzzleDataCollection.fetch" cb ;;;
  let! data := with_headers c (VObj [("_id", documentId)]) in
  Kuzzle.query (kuzzle c)
    (Query (collection c) "read" "get" data options (CbDocument this cb)) ;;;
  ret (RObj this).

Definition fetchAllDocuments (this : loc) (options cb : value) : M returned :=
  let (options, cb) := shift options cb in
  self this ;;;
  Kuzzle.callbackRequired "KuzzleDataCollection.fetchAll" cb ;;;
  advancedSearch this (VObj []) options cb ;;;
  ret (RObj this).

(** The requests a KuzzleDataMapping forwards are handed to [kuzzle.query]
    in order. *)
Fixpoint forward (k : loc) (qs : list QueryCall) : M unit :=
  match qs with
  | [] => ret tt
  | q :: qs' => Kuzzle.query k q ;;; forward k qs'
  end.

Definition getMapping (this : loc) (options cb : value) : M returned :=
  let (options, cb) := shift options cb in
  let! c := self this in
  Kuzzle.callbackRequired "KuzzleDataCollection.getMapping" cb ;;;
  alloc (CMapping (Mapping this VUndef)) ;;;
  let! hs := the_object (headers c) in
  let! qs := lift (mapping_refresh (collection c) (VObj hs) VUndef options cb) in
  forward (kuzzle c) qs ;;;
  ret (RObj this).

Definition publish (this : loc) (document options : value) : M returned :=
  let data :=
    if is_document document then toJSON document
    else set_field "body" document [] in
  let data := set_field "persist" (VBool false) data in
  let! c := self this in
  let! data := with_headers c (VObj data) in
  Kuzzle.query (kuzzle c)
    (Query (collection c) "write" "create" data options (CbArg VUndef)) ;;;
  ret (RObj this).

Definition putMapping (this : loc) (mapping options cb : value) : M returned :=
  let (options, cb) := shift options cb in
  let! c := the_collection this in
  alloc (CMapping (Mapping this mapping)) ;;;
  let! hs := the_object (headers c) in
  let! qs := lift (mapping_apply (collection c) (VObj hs) mapping options cb) in
  forward (kuzzle c) qs ;;;
  ret (RObj this).

Definition replaceDocument (this : loc) (documentId content options cb : value)
  : M returned :=
  let (options, cb) := shift options cb in
  let! c := self this in
  let! data := with_headers c (VObj [("_id", documentId); ("body", content)]) in
  (if truthy cb then
     Kuzzle.query (kuzzle c)
       (Query (collection c) "write" "createOrUpdate" data options (CbDocument this cb))
   else
     Kuzzle.query (kuzzle c)
       (Query (collection c) "write" "createOrUpdate" data options (CbArg VUndef))) ;;;
  ret (RObj this).

Definition subscribe (this : loc) (filters cb options : value) : M returned :=
  self this ;;;
  Kuzzle.callbackRequired "KuzzleDataCollection.subscribe" cb ;;;
  let! room := KuzzleRoom.new this options in
  let! r := KuzzleRoom.renew room filters cb in
  ret (RObj r).

Definition truncate (this : loc) (options cb : value) : M returned :=
  let (options, cb) := shift options cb in
  let! c := self this in
  let! data := with_headers c (VObj []) in
  Kuzzle.query (kuzzle c)
    (Query (collection c) "admin" "truncateCollection" data options (CbArg cb)) ;;;
  ret (RObj this).

Definition updateDocument (this : loc) (documentId content options cb : value)
  : M returned :=
  let (options, cb) := shift options cb in
  let! c := self this in
  let! data := with_headers c (VObj [("_id", documentId); ("body", content)]) in
  (if truthy cb then
     Kuzzle.query (kuzzle c)
       (Query (collection c) "write" "update" data options (CbUpdate this cb))
   else
     Kuzzle.query (kuzzle c)
       (Query (collection c) "write" "update" data options (CbArg VUndef))) ;;;
  ret (RObj this).

Definition documentFactory (this : loc) (id content : value) : M returned :=
  let! d := lift (Closures.documentFactory this id content) in
  ret (RVal d).

Definition roomFactory (this : loc) (options : value) : M returned :=
  let! r := KuzzleRoom.new this options in
  ret (RObj r).

Definition dataMappingFactory (this : loc) (mapping : value) : M returned :=
  let! m := alloc (CMapping (Mapping this mapping)) in
  ret (RObj m).

Definition setHeaders (this : loc) (content replace : value) : M returned :=
  self this ;;;
  Kuzzle.setHeaders this content replace ;;;
  ret (RObj this).

(** A call of a prototype method, with its arguments. *)
Inductive operation : Type :=
| AdvancedSearch (filters options cb : value)
| Count (filters options cb : value)
| Create (options cb : value)
| CreateDocument (document options cb : value)
| Delete (options cb : value)
| DeleteDocument (arg options cb : value)
| FetchDocument (documentId options cb : value)
| FetchAllDocuments (options cb : value)
| GetMapping (options cb : value)
| Publish (document options : value)
| PutMapping (mapping options cb : value)
| ReplaceDocument (documentId content options cb : value)
| Subscribe (filters cb options : value)
| Truncate (options cb : value)
| UpdateDocument (documentId content options cb : value)
| DocumentFactory (id content : value)
| RoomFactory (options : value)
| DataMappingFactory (mapping : value)
| SetHeaders (content replace : value).

Definition name (o : operation) : string :=
  match o with
  | AdvancedSearch _ _ _ => "advancedSearch"
  | Count _ _ _ => "count"
  | Create _ _ => "create"
  | CreateDocument _ _ _ => "createDocument"
  | Delete _ _ => "delete"
  | DeleteDocument _ _ _ => "deleteDocument"
  | FetchDocument _ _ _ => "fetchDocument"
  | FetchAllDocuments _ _ => "fetchAllDocuments"
  | GetMapping _ _ => "getMapping"
  | Publish _ _ => "publish"
  | PutMapping _ _ _ => "putMapping"
  | ReplaceDocument _ _ _ _ => "replaceDocument"
  | Subscribe _ _ _ => "subscribe"
  | Truncate _ _ => "truncate"
  | UpdateDocument _ _ _ _ => "updateDocument"
  | DocumentFactory _ _ => "documentFactory"
  | RoomFactory _ => "roomFactory"
  | DataMappingFactory _ => "dataMappingFactory"
  | SetHeaders _ _ => "setHeaders"
  end.

(** [this.<name>(arguments)] *)
Definition invoke (this : loc) (o : operation) : M returned :=
  match o with
  | AdvancedSearch filters options cb => advancedSearch this filters options cb
  | Count filters options cb => count this filters options cb
  | Create options cb => create this options cb
  | CreateDocument document options cb => createDocument this document options cb
  | Delete options cb => delete this options cb
  | DeleteDocument arg options cb => deleteDocument this arg options cb
  | FetchDocument documentId options cb => fetchDocument this documentId options cb
  | FetchAllDocuments options cb => fetchAllDocuments this options cb
  | GetMapping options cb => getMapping this options cb
  | Publish document options => publish this document options
  | PutMapping mapping options cb => putMapping this mapping options cb
  | ReplaceDocument documentId content options cb =>
      replaceDocument this documentId content options cb
  | Subscribe filters cb options => subscribe this filters cb options
  | Truncate options cb => truncate this options cb
  | UpdateDocument documentId content options cb =>
      updateDocument this documentId content options cb
  | DocumentFactory id content => documentFactory this id content
  | RoomFactory options => roomFactory this options
  | DataMappingFactory mapping => dataMappingFactory this mapping
  | SetHeaders content replace => setHeaders this content replace
  end.

(** The methods documented to return [this]: all but [subscribe] and
    the three factories, which return the object they make. *)
Definition chainable (o : operation) : bool :=
  match o with
  | Subscribe _ _ _ | DocumentFactory _ _ | RoomFactory _
  | DataMappingFactory _ => false
  | _ => true
  end.

(** A computation that, when it returns, returns [this]. *)
Definition Returns (this : loc) (m : M returned) : Prop :=
  forall w r w', m w = Ok (r, w') -> r = RObj this.



End with_collaborators.
End KuzzleDataCollection.

(** ** A concrete session, on which the definitions can be run *)

Module Sample.

(** Headers are attached to a query under the keys it does not set. *)
Definition attach (query headers : list (string * value)) : list (string * value) :=
  fold_left (fun acc p =>
               if truthy (default VUndef (assoc (fst p) acc)) then acc
               else set_field (fst p) (snd p) acc)
            headers query.

Definition collaborators : Collaborators := {|
  addHeaders q h :=
    match q, h with
    | VObj qs, VObj hs => VObj (attach qs hs)
    | _, _ => q
    end;
  toJSON d :=
    match d with
    | VDoc _ id content _ => [("_id", id); ("body", content)]
    | _ => []
    end;
  roomId c f s :=
    4 * match c with VStr n => String.length n | _ => 0 end
    + 2 * match f with
          | VObj fs => List.length fs
          | VArr xs => List.length xs
          | _ => 0
          end
    + (if s then 0 else 1);
  subscribeToSelf o := truthy (get o "subscribeToSelf");
  mapping_refresh c hs m o cb :=
    Ok [Query c "admin" "getMapping" (VObj []) o (CbOther "refresh" cb)];
  mapping_apply c hs m o cb :=
    Ok [Query c "admin" "putMapping" (VObj [("body", m)]) o (CbOther "apply" cb)];
  run_other tag cb error result := Closures.call cb [error; result]
|}.

Definition token : list (string * value) := [("authorization", VStr "token")].

(** A session at location 1 whose headers object is at location 2. *)
Definition session (bluebird : value) : world :=
  World {[ 1%positive := CKuzzle (Session 2%positive bluebird);
           2%positive := CPlain token ]}
        [] ∅ 0 ∅ ∅ 0 [] [].

Definition kuzzle : session_obj := Session 2%positive VUndef.

Definition books_collection : collection_obj :=
  Collection (VStr "books") 1%positive 3%positive [].

(** The session with one collection, [books], at location 4. *)
Definition books : world :=
  World {[ 1%positive := CKuzzle kuzzle;
           2%positive := CPlain token;
           3%positive := CPlain token;
           4%positive := CCollection books_collection ]}
        [] ∅ 0 ∅ ∅ 0 [] [].

End Sample.

(** ** Profile.getRoles (src/core/security/Profile.ts) *)

Module ProfileRoles.

(** What [getRoles] returns: a promise resolved with a value, or what a
    call of a function returns. *)
Inductive returned : Type :=
| Resolved (v : value)
| ReturnedBy (f : nat) (args : list value).

(** [v.length === 0] for a truthy [v].  The length of a function and the
    members of a class instance are not fixed by this file ([None]). *)
Definition zero_length (v : value) : option bool :=
  match v with
  | VArr xs => Some (match xs with [] => true | _ => false end)
  | VStr s => Some (String.eqb s "")
  | VObj _ => Some (match get v "length" with VNum 0 => true | _ => false end)
  | VFun _ | VDoc _ _ _ _ => None
  | _ => Some false
  end.

(** [policies.map(policy => policy.roleId)] on an array. *)
Fixpoint role_ids (policies : list value) : result (list value) :=
  match policies with
  | [] => Ok []
  | policy :: rest =>
      match getprop policy "roleId" with
      | Throw e => Throw e
      | Ok id =>
          match role_ids rest with
          | Throw e => Throw e
          | Ok ids => Ok (id :: ids)
          end
      end
  end.

(** [v.map(policy => policy.roleId)]: an array is mapped; a value without a
    [map] function is a TypeError; an object with a [map] of its own, a
    function or a class instance leave the outcome to code that is not in
    this file ([None]). *)
Definition mapped (v : value) : option (result value) :=
  match v with
  | VArr xs =>
      Some (match role_ids xs with Ok ids => Ok (VArr ids) | Throw e => Throw e end)
  | VObj _ => if is_function (get v "map") then None else Some (Throw TypeError)
  | VFun _ | VDoc _ _ _ _ => None
  | _ => Some (Throw TypeError)
  end.

(** A parameter with the default initialiser [= {}]. *)
Definition default_object (v : value) : value :=
  match v with VUndef => VObj [] | _ => v end.

(** [getRoles (options = {})] *)
Definition getRoles (this : Profile.instance) (options : value)
  : option (result returned) :=
  let options := default_object options in
  let policies := Profile.read this "policies" in
  if negb (truthy policies) then Some (Ok (Resolved (VArr [])))
  else
    match zero_length policies with
    | None => None
    | Some true => Some (Ok (Resolved (VArr [])))
    | Some false =>
        match getprop (Profile.kuzzle this) "security" with
        | Throw e => Some (Throw e)
        | Ok security =>
            match getprop security "mGetRoles" with
            | Throw e => Some (Throw e)
            | Ok mGetRoles =>
                match mapped policies with
                | None => None
                | Some (Throw e) => Some (Throw e)
                | Some (Ok ids) =>
                    match mGetRoles with
                    | VFun f => Some (Ok (ReturnedBy f [ids; options]))
                    | _ => Some (Throw TypeError)
                    end
                end
            end
        end
    end.

End ProfileRoles.

(** ** The documentation script (src/unnamed/part_000) *)

Module DocScript.

(** What the script does that can be seen from outside: a line written by
    [echo], or an external command run with its words. *)
Inductive event : Type :=
| Echo (line : string)
| Run (words : list string).

(** How the script ends: [exit] with a status (its own, or that of the
    command that failed under [set -e]), or the shell's abort on a variable
    that is not set under [set -u]. *)
Inductive ending : Type :=
| Exit (status : nat)
| Unbound (variable : string).

(** Where the script runs: whether a path is a directory, the environment,
    the words an unquoted expansion gives (word splitting and pathname
    expansion), and the status of an external command given what ran
    before it. *)
Record machine : Type := Machine {
  is_directory : string -> bool;
  getenv : string -> option string;
  expand : string -> list string;
  status : list event -> list string -> nat
}.

Definition DOC_DIR : string := "5".
Definition SITE_BASE : string := "/sdk/js/5/".

(** A list of external commands under [set -e]: each is run after the
    events so far; the first that fails ends the script with its status. *)
Fixpoint run_all (m : machine) (commands : list (list string)) (done : list event)
  : list event * option nat :=
  match commands with
  | [] => (done, None)
  | c :: rest =>
      match status m done c with
      | 0 => run_all m rest (done ++ [Run c])
      | S n => (done ++ [Run c], Some (S n))
      end
  end.

Definition finish (r : list event * option nat) : list event * ending :=
  match r with
  | (events, None) => (events, Exit 0)
  | (events, Some n) => (events, Exit n)
  end.

Definition vuepress : string := "./framework/node_modules/.bin/vuepress".

(** The three commands of [prepare]. *)
Definition git_clone : list string :=
  ["git"; "clone"; "--depth"; "10"; "--single-branch"; "--branch"; "master";
   "https://github.com/kuzzleio/documentation.git"; "framework/"].
Definition git_pull : list string :=
  ["git"; "-C"; "framework/"; "pull"; "origin"; "master"].
Definition npm_install : list string :=
  ["npm"; "--prefix"; "framework/"; "install"].

(** The script, run as [name] with [args]. *)
Definition script (m : machine) (name : string) (args : list string)
  : list event * ending :=
  (* ARGS=${2:-""} *)
  let ARGS := match args with _ :: a :: _ => a | _ => "" end in
  if negb (is_directory m (String.append "./" DOC_DIR)) then
    ([Echo (String.append "Cannot find "
              (String.append DOC_DIR "/. You must run this script from doc/ directory."))],
     Exit 1)
  else
    match args with
    | [] => ([], Unbound "1")
    | command :: _ =>
        if String.eqb command "prepare" then
          let cloned :=
            run_all m [git_clone; git_pull] [Echo "Clone documentation framework"] in
          match cloned with
          | (events, Some n) => (events, Exit n)
          | (events, None) =>
              finish (run_all m [npm_install] (events ++ [Echo "Install dependencies"]))
          end
        else if String.eqb command "dev" then
          finish (run_all m [[vuepress; "dev"; String.append DOC_DIR "/"] ++ expand m ARGS] [])
        else if String.eqb command "build" then
          finish (run_all m [[vuepress; "build"; String.append DOC_DIR "/"] ++ expand m ARGS] [])
        else if String.eqb command "upload" then
          match getenv m "S3_BUCKET" with
          | None => ([], Unbound "S3_BUCKET")
          | Some bucket =>
              finish (run_all m
                        [["aws"; "s3"; "sync"; String.append DOC_DIR "/.vuepress/dist"]
                         ++ expand m (String.append "s3://" (String.append bucket SITE_BASE))]
                        [])
          end
        else if String.eqb command "cloudfront" then
          match getenv m "CLOUDFRONT_DISTRIBUTION_ID" with
          | None => ([], Unbound "CLOUDFRONT_DISTRIBUTION_ID")
          | Some id =>
              finish (run_all m
                        [["aws"; "cloudfront"; "create-invalidation"; "--distribution-id"]
                         ++ expand m id
                         ++ ["--paths"; String.append SITE_BASE "*"]]
                        [])
          end
        else
          ([Echo (String.append "Usage : "
                    (String.append name " <prepare|dev|build|upload|cloudfront>"))],
           Exit 1)
    end.

(** The external commands among the events, in order. *)
Fixpoint commands_of (events : list event) : list (list string) :=
  match events with
  | [] => []
  | Echo _ :: rest => commands_of rest
  | Run c :: rest => c :: commands_of rest
  end.

(** Events in which every external command returned 0 when it was run. *)
Inductive succeeded (m : machine) : list event -> Prop :=
| succeeded_nil : succeeded m []
| succeeded_echo events line :
    succeeded m events -> succeeded m (events ++ [Echo line])
| succeeded_run events c :
    succeeded m events -> status m events c = 0 -> succeeded m (events ++ [Run c]).

(** The subcommands of the script and the programs it runs. *)
Definition subcommands : list string :=
  ["prepare"; "dev"; "build"; "upload"; "cloudfront"].

Definition programs : list string := ["git"; "npm"; vuepress; "aws"].

(** A command whose program is one of those. *)
Definition known (c : list string) : Prop :=
  exists p, head c = Some p /\ p ∈ programs.

End DocScript.

(** ** Families of calls of the collection methods *)

Module Calls.
Import KuzzleDataCollection.

(** The call with [(options, cb)] as the method sees them after
    [if (!cb && typeof options === 'function') ...]. *)
Definition settled (o : operation) : operation :=
  match o with
  | AdvancedSearch filters options cb =>
      AdvancedSearch filters (fst (shift options cb)) (snd (shift options cb))
  | Count filters options cb =>
      Count filters (fst (shift options cb)) (snd (shift options cb))
  | Create options cb => Create (fst (shift options cb)) (snd (shift options cb))
  | CreateDocument document options cb =>
      CreateDocument document (fst (shift options cb)) (snd (shift options cb))
  | Delete options cb => Delete (fst (shift options cb)) (snd (shift options cb))
  | DeleteDocument arg options cb =>
      DeleteDocument arg (fst (shift options cb)) (snd (shift options cb))
  | FetchDocument documentId options cb =>
      FetchDocument documentId (fst (shift options cb)) (snd (shift options cb))
  | FetchAllDocuments options cb =>
      FetchAllDocuments (fst (shift options cb)) (snd (shift options cb))
  | GetMapping options cb => GetMapping (fst (shift options cb)) (snd (shift options cb))
  | PutMapping mapping options cb =>
      PutMapping mapping (fst (shift options cb)) (snd (shift options cb))
  | ReplaceDocument documentId content options cb =>
      ReplaceDocument documentId content (fst (shift options cb)) (snd (shift options cb))
  | Truncate options cb => Truncate (fst (shift options cb)) (snd (shift options cb))
  | UpdateDocument documentId content options cb =>
      UpdateDocument documentId content (fst (shift options cb)) (snd (shift options cb))
  | _ => o
  end.

(** The methods that call [callbackRequired], with the prefix they give it
    and the callback they check. *)
Definition required_callback (o : operation) : option (string * value) :=
  match o with
  | AdvancedSearch _ options cb =>
      Some ("KuzzleDataCollection.advancedSearch", snd (shift options cb))
  | Count _ options cb => Some ("KuzzleDataCollection.count", snd (shift options cb))
  | FetchDocument _ options cb => Some ("KuzzleDataCollection.fetch", snd (shift options cb))
  | FetchAllDocuments options cb =>
      Some ("KuzzleDataCollection.fetchAll", snd (shift options cb))
  | GetMapping options cb => Some ("KuzzleDataCollection.getMapping", snd (shift options cb))
  | Subscribe _ cb _ => Some ("KuzzleDataCollection.subscribe", cb)
  | _ => None
  end.

(** The methods that hand a request of their own to [kuzzle.query]. *)
Definition dispatches (o : operation) : bool :=
  match o with
  | AdvancedSearch _ _ _ | Count _ _ _ | Create _ _ | CreateDocument _ _ _
  | Delete _ _ | DeleteDocument _ _ _ | FetchDocument _ _ _
  | FetchAllDocuments _ _ | Publish _ _ | ReplaceDocument _ _ _ _
  | Truncate _ _ | UpdateDocument _ _ _ _ => true
  | _ => false
  end.

(** The callback a method requires is a function. *)
Definition callback_given (o : operation) : bool :=
  match required_callback o with
  | Some (_, cb) => is_function cb
  | None => true
  end.



End Calls.

(** ** Sample inputs of the script and of Profile *)

Module Examples.

(** A machine in the documentation directory, with a bucket but no
    distribution set, where words are passed on as they are and
    [git pull] fails. *)
Definition machine : DocScript.machine := {|
  DocScript.is_directory p := String.eqb p "./5";
  DocScript.getenv v := if String.eqb v "S3_BUCKET" then Some "docs" else None;
  DocScript.expand s := if String.eqb s "" then [] else [s];
  DocScript.status done c :=
    match c with
    | "git" :: "-C" :: _ => 128
    | _ => 0
    end
|}.

(** A session object whose [security.mGetRoles] is the function 3. *)
Definition security : value :=
  VObj [("security", VObj [("mGetRoles", VFun 3)])].

(** The content of a profile with two policies. *)
Definition editor : value :=
  VObj [("policies", VArr [VObj [("roleId", VStr "reader")];
                           VObj [("roleId", VStr "writer")]])].

(** A search response with two hits. *)
Definition found : value :=
  VObj [("hits", VObj [("total", VNum 2);
                       ("hits", VArr [VObj [("_id", VStr "a")];
                                      VObj [("_id", VStr "b");
                                            ("_source", VObj [("title", VStr "x")])]])])].



End Examples.

(** * Properties *)

Import KuzzleDataCollection.

Section Basics.
Context `{Collaborators}.




Lemma fresh_unused (h : gmap positive cell) : h !! fresh (dom h) = None.
Proof. apply not_elem_of_dom, is_fresh. Qed.

Lemma self_ok (w : world) (this : loc) (c : collection_obj) (s : session_obj)
  (hs : list (string * value)) :
  is_collection w this c s hs -> self this w = Ok (c, w).
Proof.
  intros (Hc & Hk & _). unfold self, bind, the_collection, the_session, ret.
  now rewrite Hc, Hk.
Qed.

Lemma with_headers_ok (w : world) (this : loc) (c : collection_obj)
  (s : session_obj) (hs : list (string * value)) (data : value) :
  is_collection w this c s hs ->
  with_headers c data w = Ok (addHeaders data (VObj hs), w).
Proof.
  intros (_ & _ & Hh). unfold with_headers, bind, the_object, ret.
  now rewrite Hh.
Qed.

Lemma query_ok (w : world) (k : loc) (s : session_obj) (q : QueryCall) :
  heap w !! k = Some (CKuzzle s) ->
  Kuzzle.query k q w = Ok (tt, Kuzzle.sent k q w).
Proof.
  intros Hk. unfold Kuzzle.query, bind, the_session. now rewrite Hk.
Qed.


End Basics.

Section Mutations.
Context `{Collaborators}.



End Mutations.

Section Reads.
Context `{Collaborators}.

Lemma shift_function (options cb : value) :
  is_function (snd (shift options cb)) = true ->
  shift (fst (shift options cb)) (snd (shift options cb)) = shift options cb.
Proof.
  unfold shift.
  destruct (negb (truthy cb) && is_function options) eqn:E; cbn [fst snd].
  - intros Hf. destruct options; try discriminate Hf. reflexivity.
  - intros Hf. destruct cb; try discriminate Hf. reflexivity.
Qed.

Lemma advancedSearch_returns (w w' : world) (this : loc) (filters options cb : value)
  (r : returned) :
  advancedSearch this filters options cb w = Ok (r, w') -> r = RObj this.
Proof.
  unfold advancedSearch. destruct (shift options cb) as [o' c'].
  unfold bind, ret.
  repeat match goal with
         | |- context [match ?m w with _ => _ end] => destruct (m w) as [[? ?]|]
         | |- context [match ?m ?x with _ => _ end] => destruct (m x) as [[? ?]|]
         end; congruence.
Qed.

Lemma advancedSearch_request (w : world) (this : loc) (c : collection_obj)
  (s : session_obj) (hs : list (string * value)) (filters options cb : value) :
  is_collection w this c s hs ->
  is_function (snd (shift options cb)) = true ->
  advancedSearch this filters options cb w
  = Ok (RObj this,
        Kuzzle.sent (kuzzle c)
          (Query (collection c) "read" "search"
                 (addHeaders (VObj [("body", filters)]) (VObj hs))
                 (fst (shift options cb))
                 (CbSearch this (snd (shift options cb)))) w).
Proof.
  intros Hw Hf. unfold advancedSearch.
  destruct (shift options cb) as [o' c']. cbn [fst snd] in *.
  unfold bind at 1. rewrite (self_ok _ _ _ _ _ Hw).
  unfold bind at 1. unfold Kuzzle.callbackRequired. rewrite Hf. cbn [ret].
  unfold bind at 1. rewrite (with_headers_ok _ _ _ _ _ _ Hw).
  unfold bind at 1. destruct Hw as (_ & Hk & _).
  now rewrite (query_ok _ _ _ _ Hk).
Qed.

Lemma fetchAllDocuments_unfold (w : world) (this : loc) (options cb : value) :
  is_function (snd (shift options cb)) = true ->
  fetchAllDocuments this options cb w = advancedSearch this (VObj []) options cb w.
Proof.
  intros Hf. unfold fetchAllDocuments.
  pose proof (shift_function options cb Hf) as Hs.
  destruct (shift options cb) as [o' c'] eqn:E. cbn [fst snd] in *.
  assert (Ha : advancedSearch this (VObj []) options cb
               = advancedSearch this (VObj []) o' c').
  { unfold advancedSearch. now rewrite E, Hs. }
  rewrite Ha.
  unfold bind at 1.
  destruct (self this w) as [[c w1]|e] eqn:Hself.
  - assert (w1 = w) as ->.
    { unfold self, bind, the_collection, the_session, ret in Hself.
      destruct (heap w !! this) as [[]|]; try discriminate.
      destruct (heap w !! kuzzle c0) as [[]|]; try discriminate.
      congruence. }
    unfold bind at 1. unfold Kuzzle.callbackRequired. rewrite Hf. cbn [ret].
    unfold bind at 1.
    destruct (advancedSearch this (VObj []) o' c' w) as [[r w2]|e] eqn:Hadv;
      [|reflexivity].
    apply advancedSearch_returns in Hadv as ->. reflexivity.
  - unfold advancedSearch. rewrite Hs. unfold bind at 1. now rewrite Hself.
Qed.

Lemma missing_callback_throws (w : world) (this : loc) (options cb : value)
  (prefix : string) (k : collection_obj -> M returned) :
  is_function cb = false ->
  exists e,
    (let! c := self this in
     Kuzzle.callbackRequired prefix cb ;;; k c) w = Throw e.
Proof.
  intros Hf. unfold bind at 1.
  destruct (self this w) as [[c w1]|e]; [|eauto].
  unfold bind at 1. unfold Kuzzle.callbackRequired. rewrite Hf.
  unfold throw. eauto.
Qed.

(** C8.  With a callback, [fetchAllDocuments(options, cb)] is
    [advancedSearch({}, options, cb)]: the same result and the same store,
    so the same read/search request with empty filters and the same
    function registered for its response; without one, both throw. *)
Theorem fetchAllDocuments_is_advancedSearch (w : world) (this : loc)
  (options cb : value) :
  (is_function (snd (shift options cb)) = true ->
   fetchAllDocuments this options cb w = advancedSearch this (VObj []) options cb w)
  /\ (is_function (snd (shift options cb)) = true ->
      forall c s hs, is_collection w this c s hs ->
      fetchAllDocuments this options cb w
      = Ok (RObj this,
            Kuzzle.sent (kuzzle c)
              (Query (collection c) "read" "search"
                     (addHeaders (VObj [("body", VObj [])]) (VObj hs))
                     (fst (shift options cb))
                     (CbSearch this (snd (shift options cb)))) w))
  /\ (is_function (snd (shift options cb)) = false ->
      (exists e, fetchAllDocuments this options cb w = Throw e)
      /\ (exists e, advancedSearch this (VObj []) options cb w = Throw e)).
Proof.
  split; [apply fetchAllDocuments_unfold|]. split.
  - intros Hf c s hs Hw. rewrite (fetchAllDocuments_unfold _ _ _ _ Hf).
    now apply advancedSearch_request with (s := s).
  - intros Hf. split.
    + unfold fetchAllDocuments. destruct (shift options cb) as [o' c'].
      cbn [snd] in Hf.
      destruct (missing_callback_throws w this o' c'
                  "KuzzleDataCollection.fetchAll"
                  (fun _ => advancedSearch this (VObj []) o' c' ;;; ret (RObj this)) Hf)
        as [e He].
      exists e. exact He.
    + unfold advancedSearch. destruct (shift options cb) as [o' c'].
      cbn [snd] in Hf.
      eapply (missing_callback_throws w this o' c'); exact Hf.
Qed.


End Reads.

Section Responses.
Context `{Collaborators}.

Lemma getprop_ok (v : value) (k : string) :
  Closures.is_nullish v = false -> getprop v k = Ok (get v k).
Proof. destruct v; cbn; intros E; try discriminate E; reflexivity. Qed.

Lemma documentFactory_ok (this : loc) (id content : value) :
  Closures.is_nullish content = false ->
  exists d, Closures.documentFactory this id content = Ok d.
Proof.
  intros Hc. unfold Closures.documentFactory. rewrite (getprop_ok _ _ Hc). eauto.
Qed.

Lemma documents_of_ok (self : loc) (docs : list value) :
  forallb (fun doc => negb (Closures.is_nullish doc)) docs = true ->
  exists ds, Closures.documents_of self docs = Ok ds.
Proof.
  induction docs as [|doc docs IH]; cbn; [eauto|].
  intros [Hd Hds]%andb_true_iff. apply negb_true_iff in Hd.
  rewrite (getprop_ok _ _ Hd).
  destruct (documentFactory_ok self (get doc "_id") doc Hd) as [d ->].
  destruct (IH Hds) as [ds ->]. eauto.
Qed.

(** The function registered for a response calls the caller's function
    once: with the error alone on failure, with null and the result on
    success. *)
Lemma run_callback_once (c : callback) (f : nat) (error result : value) :
  match c with
  | CbArg cb | CbSearch _ cb | CbCount cb | CbDocument _ cb
  | CbDelete _ _ cb | CbUpdate _ cb => cb = VFun f
  | CbOther _ _ => False
  end ->
  truthy error = true \/ Closures.readable c result = true ->
  exists args,
    Closures.run_callback c error result = Ok [Invoke f args]
    /\ (truthy error = true -> args = Closures.failure_arguments c error result)
    /\ (truthy error = false ->
        match c with
        | CbArg _ => args = [error; result]
        | _ => exists data, args = [VNull; data]
        end).
Proof.
  intros Hc Hr.
  destruct c as [cb|sf cb|cb|sf cb|action data cb|sf cb|tag cb];
    try contradiction; subst cb; cbn [Closures.run_callback Closures.call];
    try (destruct (truthy error) eqn:He;
         [eexists; split; [reflexivity|]; split; [reflexivity | discriminate]|]);
    try (destruct Hr as [Hr|Hr]; [discriminate Hr|]); cbn in Hr.
  - eexists; split; [reflexivity|]. split; [reflexivity|].
    destruct (truthy error); reflexivity.
  - apply andb_true_iff in Hr as [[Hr Hh]%andb_true_iff Hd].
    apply negb_true_iff in Hr, Hh.
    rewrite (getprop_ok _ _ Hr), (getprop_ok _ _ Hh).
    destruct (get (get result "hits") "hits"); try discriminate Hd.
    destruct (documents_of_ok sf xs Hd) as [ds ->].
    eexists; split; [reflexivity|]. split; [discriminate | eauto].
  - apply negb_true_iff in Hr. rewrite (getprop_ok _ _ Hr).
    eexists; split; [reflexivity|]. split; [discriminate | eauto].
  - apply negb_true_iff in Hr. rewrite (getprop_ok _ _ Hr).
    destruct (documentFactory_ok sf (get result "_id") result Hr) as [d ->].
    eexists; split; [reflexivity|]. split; [discriminate | eauto].
  - destruct (String.eqb action "delete");
      apply negb_true_iff in Hr; rewrite (getprop_ok _ _ Hr);
      (eexists; split; [reflexivity|]; split; [discriminate | eauto]).
  - apply negb_true_iff in Hr. rewrite (getprop_ok _ _ Hr).
    eexists; split; [reflexivity|]. split; [discriminate | eauto].
Qed.





Lemma documents_of_hits (self : loc) (docs : list value) :
  Closures.documents_of self docs
  = if forallb (fun doc => negb (Closures.is_nullish doc)) docs
    then Closures.documents_of self docs
    else Throw TypeError.
Proof.
  induction docs as [|doc docs IH]; [reflexivity|].
  cbn [forallb Closures.documents_of].
  destruct (Closures.is_nullish doc) eqn:Hd; cbn [negb andb].
  - destruct doc; try discriminate Hd; reflexivity.
  - rewrite (getprop_ok _ _ Hd).
    destruct (documentFactory_ok self (get doc "_id") doc Hd) as [d ->].
    rewrite IH. destruct (forallb _ docs); reflexivity.
Qed.



End Responses.

Section Construction.
Context `{Collaborators}.

Lemma new_result (k : loc) (name : value) (w : world) (s : session_obj)
  (hs : list (string * value)) :
  heap w !! k = Some (CKuzzle s) ->
  heap w !! k_headers s = Some (CPlain hs) ->
  let h := fresh (dom (heap w)) in
  let this := fresh (dom (<[h := CPlain (JSON.copy_fields hs)]> (heap w))) in
  let c := Collection name k h
             (if truthy (bluebird s)
              then Bluebird.promisifyAll (function_keys name) "Promise" promisify_filter
              else []) in
  new k name w
  = Ok (this, set_heap (<[this := CCollection c]>
                          (<[h := CPlain (JSON.copy_fields hs)]> (heap w))) w).
Proof.
  intros Hk Hh h this c.
  unfold new, bind, the_session, the_object, alloc, store, ret.
  rewrite Hk, Hh. cbn.
  fold h. fold this. subst c.
  destruct (truthy (bluebird s)); cbn.
  - f_equal. f_equal. unfold set_heap; cbn. f_equal.
    apply insert_insert_eq.
  - reflexivity.
Qed.

(** C3.  The constructor promisifies when the session carries a bluebird
    handle: the instance it returns then has a [Promise]-suffixed variant
    of every asynchronous method, and of every method of the prototype
    except exactly publish, setHeaders and subscribe; without a handle it
    returns the instance with the methods of the prototype only. *)
Theorem constructor_promisifies (k : loc) (name : value) (w : world)
  (s : session_obj) (hs : list (string * value)) :
  heap w !! k = Some (CKuzzle s) ->
  heap w !! k_headers s = Some (CPlain hs) ->
  exists this w' c,
    new k name w = Ok (this, w')
    /\ heap w' !! this = Some (CCollection c)
    /\ heap w !! this = None
    /\ collection c = name /\ kuzzle c = k
    /\ (truthy (bluebird s) = true ->
        Forall (fun m => String.append m "Promise" ∈ methods c) asynchronous
        /\ Forall (fun m => String.append m "Promise" ∉ methods c) blacklist
        /\ Forall (fun m => String.append m "Promise" ∈ methods c
                            <-> ((m ∉ blacklist) /\ m <> "constructor")) prototype)
    /\ (truthy (bluebird s) = false -> methods c = prototype).
Proof.
  intros Hk Hh.
  pose proof (new_result k name w s hs Hk Hh) as Hnew. cbn zeta in Hnew.
  eexists _, _, _. split; [exact Hnew|].
  split; [cbn; apply lookup_insert_eq|].
  split.
  { set (h := fresh (dom (heap w))).
    pose proof (fresh_unused (<[h := CPlain (JSON.copy_fields hs)]> (heap w))) as Hf.
    apply lookup_insert_None in Hf. tauto. }
  split; [reflexivity|]. split; [reflexivity|].
  split.
  - intros ->. unfold methods; cbn [own_methods].
    destruct (is_function name) eqn:Hn; unfold function_keys; rewrite Hn;
      (split; [|split]); apply (bool_decide_unpack _); vm_compute; reflexivity.
  - intros ->. reflexivity.
Qed.
End Construction.

Section Chaining.
Context `{Collaborators}.

Lemma same_identity_refl w : same_identity w w.
Proof. intros l c Hl. eauto. Qed.

Lemma same_identity_trans w1 w2 w3 :
  same_identity w1 w2 -> same_identity w2 w3 -> same_identity w1 w3.
Proof.
  intros H12 H23 l c Hl.
  destruct (H12 l c Hl) as (c2 & Hl2 & Hc & Hk).
  destruct (H23 l c2 Hl2) as (c3 & Hl3 & Hc3 & Hk3).
  exists c3. repeat split; congruence.
Qed.

Lemma same_identity_heap w w' : heap w' = heap w -> same_identity w w'.
Proof. intros E l c Hl. rewrite E. eauto. Qed.

Lemma keeps_ret {A} (a : A) : Keeps (ret a).
Proof. intros w a' w' E. injection E as _ <-. apply same_identity_refl. Qed.

Lemma keeps_throw {A} (e : exn) : Keeps (@throw A e).
Proof. intros w a w' E. discriminate E. Qed.

Lemma keeps_lift {A} (r : result A) : Keeps (lift r).
Proof.
  intros w a w' E. unfold lift in E. destruct r; [|discriminate E].
  injection E as _ <-. apply same_identity_refl.
Qed.

Lemma keeps_bind {A B} (m : M A) (k : A -> M B) :
  Keeps m -> (forall a, Keeps (k a)) -> Keeps (bind m k).
Proof.
  intros Hm Hk w b w' E. unfold bind in E.
  destruct (m w) as [[a w1]|e] eqn:Em; [|discriminate E].
  eapply same_identity_trans; [eapply Hm | eapply Hk]; eassumption.
Qed.

Lemma keeps_read {A} (m : M A) :
  (forall w a w', m w = Ok (a, w') -> heap w' = heap w) -> Keeps m.
Proof. intros Hm w a w' E. apply same_identity_heap. eauto. Qed.

Lemma keeps_alloc (c : cell) : Keeps (alloc c).
Proof.
  intros w l w' E. injection E as <- <-. intros l c0 Hl. exists c0.
  split; [|auto]. cbn. rewrite lookup_insert_ne; [exact Hl|].
  intros <-. rewrite fresh_unused in Hl. discriminate Hl.
Qed.


Lemma keeps_the_session k : Keeps (the_session k).
Proof.
  apply keeps_read. intros w a w'. unfold the_session.
  destruct (heap w !! k) as [[]|]; congruence.
Qed.

Lemma keeps_the_collection l : Keeps (the_collection l).
Proof.
  apply keeps_read. intros w a w'. unfold the_collection.
  destruct (heap w !! l) as [[]|]; congruence.
Qed.

Lemma keeps_the_object l : Keeps (the_object l).
Proof.
  apply keeps_read. intros w a w'. unfold the_object.
  destruct (heap w !! l) as [[]|]; congruence.
Qed.

Lemma keeps_callbackRequired p cb : Keeps (Kuzzle.callbackRequired p cb).
Proof.
  unfold Kuzzle.callbackRequired. destruct (is_function cb);
    [apply keeps_ret | apply keeps_throw].
Qed.

Lemma keeps_query k q : Keeps (Kuzzle.query k q).
Proof.
  unfold Kuzzle.query. apply keeps_bind; [apply keeps_the_session|].
  intros _. apply keeps_read. intros w a w' E. now injection E as _ <-.
Qed.

Lemma keeps_forward k qs : Keeps (forward k qs).
Proof.
  induction qs as [|q qs IH]; cbn [forward]; [apply keeps_ret|].
  apply keeps_bind; [apply keeps_query | intros _; exact IH].
Qed.

Lemma keeps_self this : Keeps (self this).
Proof.
  unfold self. apply keeps_bind; [apply keeps_the_collection|]. intros c.
  apply keeps_bind; [apply keeps_the_session | intros _; apply keeps_ret].
Qed.

Lemma keeps_with_headers c data : Keeps (with_headers c data).
Proof.
  unfold with_headers. apply keeps_bind; [apply keeps_the_object|].
  intros hs. apply keeps_ret.
Qed.

Lemma heap_subscribed c f sn h w : heap (Registry.subscribed c f sn h w) = heap w.
Proof.
  unfold Registry.subscribed, Registry.created.
  destruct (rooms w !! _) as [r|]; [destruct (Registry.is_active r)|]; reflexivity.
Qed.

Lemma heap_unsubscribed id cbid w : heap (Registry.unsubscribed id cbid w) = heap w.
Proof.
  unfold Registry.unsubscribed.
  destruct (rooms w !! _) as [r|]; [destruct (filter _ _)|]; reflexivity.
Qed.

Lemma keeps_registry_subscribe c f sn h : Keeps (Registry.subscribe c f sn h).
Proof.
  apply keeps_read. intros w a w' E. injection E as _ <-. apply heap_subscribed.
Qed.

Lemma keeps_registry_unsubscribe id cbid : Keeps (Registry.unsubscribe id cbid).
Proof.
  apply keeps_read. intros w a w' E. injection E as _ <-. apply heap_unsubscribed.
Qed.

(** Writing a cell that is not a collection, or a collection with the same
    read-only fields. *)
Lemma same_identity_insert (w : world) (l : loc) (c : cell) :
  match heap w !! l, c with
  | Some (CCollection c0), CCollection c1 =>
      collection c1 = collection c0 /\ kuzzle c1 = kuzzle c0
  | Some (CCollection _), _ => False
  | _, _ => True
  end ->
  same_identity w (set_heap (<[l := c]> (heap w)) w).
Proof.
  intros Hl l0 c0 Hl0. cbn. destruct (decide (l = l0)) as [E|Hne]; [subst l0|].
  - rewrite Hl0 in Hl. destruct c; try contradiction.
    rewrite lookup_insert_eq. eauto.
  - rewrite lookup_insert_ne by exact Hne. eauto.
Qed.

Lemma keeps_renew r filters cb : Keeps (KuzzleRoom.renew r filters cb).
Proof.
  intros w a w'. unfold KuzzleRoom.renew, bind, the_room, the_collection, store, ret.
  destruct (heap w !! r) as [[| | |h|]|] eqn:Hr; try discriminate.
  destruct (heap w !! rh_collection h) as [[| |c| |]|]; try discriminate.
  unfold Registry.subscribe. intros E. injection E as _ <-.
  eapply same_identity_trans;
    [apply same_identity_heap, heap_subscribed|].
  apply same_identity_insert. rewrite heap_subscribed, Hr. exact I.
Qed.

Lemma keeps_setHeaders this content replace :
  Keeps (Kuzzle.setHeaders this content replace).
Proof.
  intros w a w'. unfold Kuzzle.setHeaders, bind, the_collection.
  destruct (heap w !! this) as [[| |c| |]|] eqn:Hc; try discriminate.
  destruct content; try discriminate.
  destruct (truthy replace).
  - unfold alloc, store. intros E. injection E as _ <-.
    eapply same_identity_trans.
    + apply (keeps_alloc (CPlain fs) w _ _ eq_refl).
    + match goal with
      | |- same_identity ?w1 _ =>
          apply (same_identity_insert w1 this)
      end.
      cbn. rewrite lookup_insert_ne.
      * rewrite Hc. auto.
      * intros E. rewrite <- E, fresh_unused in Hc. discriminate Hc.
  - unfold the_object, store.
    destruct (heap w !! headers c) as [[old| | | |]|] eqn:Hh; try discriminate.
    intros E. injection E as _ <-.
    apply same_identity_insert. now rewrite Hh.
Qed.


Lemma keeps_room_unsubscribe r : Keeps (KuzzleRoom.unsubscribe r).
Proof.
  intros w a w'. unfold KuzzleRoom.unsubscribe, bind, the_room, store, ret.
  destruct (heap w !! r) as [[| | |h|]|] eqn:Hr; try discriminate.
  destruct (rh_subscription h) as [[id cbid]|].
  - unfold Registry.unsubscribe. intros E. injection E as _ <-.
    eapply same_identity_trans;
      [apply same_identity_heap, heap_unsubscribed|].
    apply same_identity_insert. rewrite heap_unsubscribed, Hr. exact I.
  - intros E. injection E as _ <-. apply same_identity_refl.
Qed.

Ltac keeps :=
  repeat first
    [ apply keeps_ret | apply keeps_throw | apply keeps_lift
    | apply keeps_self | apply keeps_with_headers | apply keeps_query
    | apply keeps_forward | apply keeps_callbackRequired | apply keeps_alloc
    | apply keeps_the_collection | apply keeps_the_object
    | apply keeps_renew | apply keeps_setHeaders
    | apply keeps_bind; [|intros ?]
    | match goal with
      | |- Keeps (if ?b then _ else _) => destruct b
      | |- Keeps (let (_, _) := ?p in _) => destruct p
      end ].

Lemma keeps_invoke (this : loc) (o : operation) : Keeps (invoke this o).
Proof.
  destruct o; cbn [invoke];
    unfold advancedSearch, count, create, createDocument, delete, deleteDocument,
      fetchDocument, fetchAllDocuments, getMapping, publish, putMapping,
      replaceDocument, subscribe, truncate, updateDocument, documentFactory,
      roomFactory, dataMappingFactory, setHeaders, KuzzleRoom.new;
    keeps.
  unfold advancedSearch. keeps.
Qed.

Lemma returns_ret (this : loc) : Returns this (ret (RObj this)).
Proof. intros w r w' E. now injection E as <- _. Qed.

Lemma returns_bind {A} (this : loc) (m : M A) (k : A -> M returned) :
  (forall a, Returns this (k a)) -> Returns this (bind m k).
Proof.
  intros Hk w r w' E. unfold bind in E.
  destruct (m w) as [[a w1]|]; [|discriminate E]. eapply Hk, E.
Qed.

Lemma returns_invoke (this : loc) (o : operation) :
  chainable o = true -> Returns this (invoke this o).
Proof.
  destruct o; try discriminate; intros _; cbn [invoke];
    unfold advancedSearch, count, create, createDocument, delete, deleteDocument,
      fetchDocument, fetchAllDocuments, getMapping, publish, putMapping,
      replaceDocument, truncate, updateDocument, setHeaders;
    try match goal with
        | |- Returns _ (let (_, _) := ?p in _) => destruct p
        end;
    repeat (apply returns_bind; intros ?); apply returns_ret.
Qed.

(** C10, as amended.  Every prototype method other than [subscribe] and the
    factories [documentFactory], [roomFactory] and [dataMappingFactory]
    returns its receiver when it returns, and no method changes the
    [collection] and [kuzzle] fields of any collection. *)
Theorem chaining_and_identity (w w' : world) (this : loc) (o : operation)
  (r : returned) :
  invoke this o w = Ok (r, w') ->
  (chainable o = true -> r = RObj this)
  /\ (forall l c,
        heap w !! l = Some (CCollection c) ->
        exists c', heap w' !! l = Some (CCollection c')
                   /\ collection c' = collection c
                   /\ kuzzle c' = kuzzle c).
Proof.
  intros E. split.
  - intros Hc. exact (returns_invoke this o Hc w r w' E).
  - exact (keeps_invoke this o w r w' E).
Qed.

End Chaining.

(** C10, as stated, fails: [documentFactory] is a prototype method other than
    [subscribe], and it returns the document it makes. *)
Lemma documentFactory_returns_a_document :
  KuzzleDataCollection.name (DocumentFactory (VStr "d1") (VObj [("title", VStr "t")]))
  <> "subscribe"
  /\ invoke (H := Sample.collaborators) 4%positive
            (DocumentFactory (VStr "d1") (VObj [("title", VStr "t")])) Sample.books
     = Ok (RVal (VDoc 4%positive (VStr "d1") (VObj [("title", VStr "t")]) VUndef),
           Sample.books)
  /\ RVal (VDoc 4%positive (VStr "d1") (VObj [("title", VStr "t")]) VUndef)
     <> RObj 4%positive.
Proof. split; [discriminate|]. split; [reflexivity | discriminate]. Qed.

Section Headers.
Context `{Collaborators}.

Lemma copy_data : forall v, JSON.is_data v = true -> JSON.copy v = v.
Proof.
  fix IH 1. intros [| |b|n|s|xs|fs|f|l i c ve]; cbn [JSON.is_data JSON.copy];
    try reflexivity; try discriminate.
  - intros Hx. f_equal.
    induction xs as [|x xs IHxs]; [reflexivity|].
    cbn [forallb map] in *. apply andb_true_iff in Hx as [Hx Hxs].
    rewrite (IH x Hx), (IHxs Hxs).
    destruct x; try discriminate Hx; reflexivity.
  - intros Hx. f_equal.
    induction fs as [|[k x] fs IHfs]; [reflexivity|].
    cbn [forallb snd] in *. apply andb_true_iff in Hx as [Hx Hxs].
    rewrite (IH x Hx), (IHfs Hxs).
    destruct x; try discriminate Hx; reflexivity.
Qed.

Lemma copy_fields_data (fs : list (string * value)) :
  JSON.is_data (VObj fs) = true -> JSON.copy_fields fs = fs.
Proof. intros Hd. unfold JSON.copy_fields. now rewrite (copy_data _ Hd). Qed.

(** A collection written at [this] with a headers object of its own at an
    unused location [h]. *)
Lemma own_headers_insert (w : world) (this h : loc) (c : collection_obj)
  (fs : list (string * value)) :
  own_headers w ->
  heap w !! h = None ->
  this <> h ->
  headers c = h ->
  (heap w !! this = None \/ exists c0, heap w !! this = Some (CCollection c0)) ->
  own_headers (set_heap (<[this := CCollection c]> (<[h := CPlain fs]> (heap w))) w).
Proof.
  intros (Ha & Hb & Hc & Hd) Hh Hne Hch Hthis.
  assert (Hnot_headers : forall l fs0, heap w !! l = Some (CPlain fs0) -> l <> this).
  { intros l fs0 Hl ->. destruct Hthis as [E|[c0 E]]; congruence. }
  unfold own_headers. cbn [heap set_heap]. repeat split.
  - intros l c1 E.
    assert (Hcase : (l = this /\ c1 = c) \/ (l <> this /\ heap w !! l = Some (CCollection c1))).
    { rewrite !lookup_insert in E. repeat case_decide; simplify_eq; auto. }
    destruct Hcase as [[-> ->]|[Hl E']].
    + exists fs. rewrite Hch, lookup_insert_ne, lookup_insert_eq by congruence.
      reflexivity.
    + destruct (Ha _ _ E') as [fs0 Hfs0]. exists fs0.
      rewrite !lookup_insert_ne; [exact Hfs0 | congruence |].
      intros E2. symmetry in E2. revert E2. eapply Hnot_headers; eauto.
  - intros k s E.
    assert (E' : heap w !! k = Some (CKuzzle s)).
    { rewrite !lookup_insert in E. repeat case_decide; simplify_eq; auto. }
    destruct (Hb _ _ E') as [fs0 Hfs0]. exists fs0.
    rewrite !lookup_insert_ne; [exact Hfs0 | congruence |].
    intros E2. symmetry in E2. revert E2. eapply Hnot_headers; eauto.
  - intros l1 l2 c1 c2 E1 E2 Eh.
    assert (Hcase1 : (l1 = this /\ c1 = c) \/ (l1 <> this /\ heap w !! l1 = Some (CCollection c1))).
    { rewrite !lookup_insert in E1. repeat case_decide; simplify_eq; auto. }
    assert (Hcase2 : (l2 = this /\ c2 = c) \/ (l2 <> this /\ heap w !! l2 = Some (CCollection c2))).
    { rewrite !lookup_insert in E2. repeat case_decide; simplify_eq; auto. }
    destruct Hcase1 as [[-> ->]|[Hl1 E1']], Hcase2 as [[-> ->]|[Hl2 E2']].
    + reflexivity.
    + destruct (Ha _ _ E2') as [fs0 Hfs0]. congruence.
    + destruct (Ha _ _ E1') as [fs0 Hfs0]. congruence.
    + eapply Hc; eauto.
  - intros l c1 k s E1 E2.
    assert (Hcase1 : (l = this /\ c1 = c) \/ (l <> this /\ heap w !! l = Some (CCollection c1))).
    { rewrite !lookup_insert in E1. repeat case_decide; simplify_eq; auto. }
    assert (E2' : heap w !! k = Some (CKuzzle s)).
    { rewrite !lookup_insert in E2. repeat case_decide; simplify_eq; auto. }
    destruct Hcase1 as [[-> ->]|[Hl1 E1']].
    + destruct (Hb _ _ E2') as [fs0 Hfs0]. congruence.
    + eapply Hd; eauto.
Qed.

Lemma own_headers_update (w : world) (l : loc) (old new : list (string * value)) :
  own_headers w ->
  heap w !! l = Some (CPlain old) ->
  own_headers (set_heap (<[l := CPlain new]> (heap w)) w).
Proof.
  intros (Ha & Hb & Hc & Hd) Hl.
  assert (Hcoll : forall l0 c0,
             <[l := CPlain new]> (heap w) !! l0 = Some (CCollection c0) ->
             heap w !! l0 = Some (CCollection c0)).
  { intros l0 c0. rewrite lookup_insert. case_decide; intros E; simplify_eq; auto. }
  assert (Hsess : forall l0 s0,
             <[l := CPlain new]> (heap w) !! l0 = Some (CKuzzle s0) ->
             heap w !! l0 = Some (CKuzzle s0)).
  { intros l0 s0. rewrite lookup_insert. case_decide; intros E; simplify_eq; auto. }
  assert (Hplain : forall l0 fs0,
             heap w !! l0 = Some (CPlain fs0) ->
             exists fs1, <[l := CPlain new]> (heap w) !! l0 = Some (CPlain fs1)).
  { intros l0 fs0 E. rewrite lookup_insert. case_decide; eauto. }
  unfold own_headers. cbn [heap set_heap]. repeat split.
  - intros l0 c0 E. destruct (Ha _ _ (Hcoll _ _ E)) as [fs0 Hfs0]. eauto.
  - intros k s E. destruct (Hb _ _ (Hsess _ _ E)) as [fs0 Hfs0]. eauto.
  - intros l1 l2 c1 c2 E1 E2. eapply Hc; eauto.
  - intros l0 c0 k s E1 E2. eapply Hd; eauto.
Qed.

Lemma setHeaders_result (w : world) (this : loc) (c : collection_obj)
  (s : session_obj) (hs fs : list (string * value)) (replace : value) :
  is_collection w this c s hs ->
  setHeaders this (VObj fs) replace w
  = Ok (RObj this,
        if truthy replace then
          let h := fresh (dom (heap w)) in
          set_heap (<[this := CCollection (Collection (collection c) (kuzzle c) h
                                                       (own_methods c))]>
                      (<[h := CPlain fs]> (heap w))) w
        else
          set_heap (<[headers c :=
                        CPlain (fold_left (fun acc p => set_field (fst p) (snd p) acc)
                                          fs hs)]> (heap w)) w).
Proof.
  intros Hw. unfold setHeaders. unfold bind at 1. rewrite (self_ok _ _ _ _ _ Hw).
  destruct Hw as (Hc & Hk & Hh).
  unfold bind at 1. unfold Kuzzle.setHeaders. unfold bind at 1.
  unfold the_collection. rewrite Hc.
  destruct (truthy replace).
  - reflexivity.
  - unfold bind, the_object, store, ret. rewrite Hh. reflexivity.
Qed.

Lemma self_inv (w w' : world) (this : loc) (c : collection_obj) :
  self this w = Ok (c, w') ->
  heap w !! this = Some (CCollection c)
  /\ exists s, heap w !! kuzzle c = Some (CKuzzle s) /\ w' = w.
Proof.
  unfold self, bind, the_collection, the_session, ret.
  destruct (heap w !! this) as [[| |c0| |]|]; try discriminate.
  destruct (heap w !! kuzzle c0) as [[|s| | |]|] eqn:Hk; try discriminate.
  intros E. injection E as <- <-. eauto.
Qed.

Lemma new_keeps_own_headers (w : world) (k : loc) (s : session_obj)
  (hs : list (string * value)) (name : value) :
  own_headers w ->
  heap w !! k = Some (CKuzzle s) ->
  heap w !! k_headers s = Some (CPlain hs) ->
  exists this w1 c,
    new k name w = Ok (this, w1)
    /\ own_headers w1
    /\ heap w1 !! this = Some (CCollection c)
    /\ collection c = name /\ kuzzle c = k
    /\ heap w !! this = None
    /\ heap w !! headers c = None
    /\ headers c <> k_headers s
    /\ heap w1 !! headers c = Some (CPlain (JSON.copy_fields hs))
    /\ (JSON.is_data (VObj hs) = true -> JSON.copy_fields hs = hs)
    /\ (forall l, l <> this -> l <> headers c -> heap w1 !! l = heap w !! l).
Proof.
  intros Hown Hk Hh.
  pose proof (new_result k name w s hs Hk Hh) as Hnew. cbn zeta in Hnew.
  set (h := fresh (dom (heap w))) in *.
  set (this := fresh (dom (<[h := CPlain (JSON.copy_fields hs)]> (heap w)))) in *.
  assert (Hfh : heap w !! h = None) by apply fresh_unused.
  assert (Hft : <[h := CPlain (JSON.copy_fields hs)]> (heap w) !! this = None)
    by apply fresh_unused.
  apply lookup_insert_None in Hft as [Hft Hne].
  eexists this, _, _. split; [exact Hnew|]. cbn [heap set_heap headers collection kuzzle].
  split.
  { apply own_headers_insert; auto. }
  split; [apply lookup_insert_eq|].
  split; [reflexivity|]. split; [reflexivity|].
  split; [exact Hft|]. split; [exact Hfh|].
  split; [intros E; cbn [headers] in E; rewrite E, Hh in Hfh; discriminate Hfh|].
  split; [cbn [headers]; rewrite lookup_insert_ne, lookup_insert_eq by congruence;
          reflexivity|].
  split; [apply copy_fields_data|].
  intros l Hl1 Hl2. cbn [headers] in Hl2. now rewrite !lookup_insert_ne by congruence.
Qed.

Lemma setHeaders_frame (w w' : world) (this : loc) (c : collection_obj)
  (content replace : value) (r : returned) :
  own_headers w ->
  heap w !! this = Some (CCollection c) ->
  setHeaders this content replace w = Ok (r, w') ->
  r = RObj this
  /\ own_headers w'
  /\ (exists c', heap w' !! this = Some (CCollection c')
                 /\ collection c' = collection c
                 /\ kuzzle c' = kuzzle c
                 /\ own_methods c' = own_methods c)
  /\ (forall k s, heap w !! k = Some (CKuzzle s) ->
                  heap w' !! k = Some (CKuzzle s)
                  /\ heap w' !! k_headers s = heap w !! k_headers s)
  /\ (forall l c2, l <> this ->
                   heap w !! l = Some (CCollection c2) ->
                   heap w' !! l = Some (CCollection c2)
                   /\ heap w' !! headers c2 = heap w !! headers c2)
  /\ queries w' = queries w /\ pending w' = pending w
  /\ rooms w' = rooms w /\ network w' = network w /\ invoked w' = invoked w.
Proof.
  intros Hown Hc E.
  pose proof Hown as (Ha & Hb & Hsep & Hd).
  destruct (Ha _ _ Hc) as [hs Hh].
  assert (Hk : exists s, heap w !! kuzzle c = Some (CKuzzle s)).
  { unfold setHeaders in E. unfold bind at 1 in E.
    destruct (self this w) as [[c0 w0]|] eqn:Hs; [|discriminate E].
    apply self_inv in Hs as (Hc0 & s & Hs & _). exists s. congruence. }
  destruct Hk as [s Hk].
  assert (Hw : is_collection w this c s hs) by (repeat split; assumption).
  destruct content as [| | | | | |fs| |];
    try (unfold setHeaders, bind in E; rewrite (self_ok _ _ _ _ _ Hw) in E;
         unfold Kuzzle.setHeaders, bind, the_collection in E; rewrite Hc in E;
         discriminate E).
  rewrite (setHeaders_result _ _ _ _ _ _ _ Hw) in E. injection E as <- <-.
  split; [reflexivity|].
  destruct (truthy replace).
  - set (h := fresh (dom (heap w))).
    assert (Hfh : heap w !! h = None) by apply fresh_unused.
    assert (Hne : this <> h) by congruence.
    cbn [heap set_heap queries pending rooms network invoked].
    split.
    { apply own_headers_insert; eauto. }
    split.
    { eexists. rewrite lookup_insert_eq. auto. }
    split.
    { intros k0 s0 Hk0. destruct (Hb _ _ Hk0) as [fs0 Hfs0].
      rewrite !lookup_insert_ne by congruence. auto. }
    split; [|auto 10].
    intros l c2 Hl Hc2. destruct (Ha _ _ Hc2) as [fs0 Hfs0].
    rewrite !lookup_insert_ne by congruence. auto.
  - cbn [heap set_heap queries pending rooms network invoked].
    split.
    { eapply own_headers_update; eauto. }
    split.
    { exists c. rewrite lookup_insert_ne by congruence. auto. }
    split.
    { intros k0 s0 Hk0.
      pose proof (Hd _ _ _ _ Hc Hk0) as Hne.
      rewrite !lookup_insert_ne by congruence. auto. }
    split; [|auto 10].
    intros l c2 Hl Hc2.
    assert (Hne : headers c <> headers c2).
    { intros Eh. apply Hl. eapply Hsep; eauto. }
    rewrite !lookup_insert_ne by congruence. auto.
Qed.

(** C5.  A collection made by the constructor refers to its session and has
    a headers object of its own, a new object holding the JSON copy of the
    session's headers; a [setHeaders] call on a collection changes that
    collection's headers only: its [collection] and [kuzzle] fields, the
    session and its headers object, and every other collection and its
    headers object stay as they are. *)
Theorem own_headers_frame :
  (forall (w : world) (k : loc) (s : session_obj) (hs : list (string * value))
          (name : value),
      own_headers w ->
      heap w !! k = Some (CKuzzle s) ->
      heap w !! k_headers s = Some (CPlain hs) ->
      exists this w1 c,
        new k name w = Ok (this, w1)
        /\ own_headers w1
        /\ heap w1 !! this = Some (CCollection c)
        /\ collection c = name /\ kuzzle c = k
        /\ heap w !! this = None
        /\ heap w !! headers c = None
        /\ headers c <> k_headers s
        /\ heap w1 !! headers c = Some (CPlain (JSON.copy_fields hs))
        /\ (JSON.is_data (VObj hs) = true -> JSON.copy_fields hs = hs)
        /\ (forall l, l <> this -> l <> headers c -> heap w1 !! l = heap w !! l))
  /\ (forall (w w' : world) (this : loc) (c : collection_obj)
             (content replace : value) (r : returned),
        own_headers w ->
        heap w !! this = Some (CCollection c) ->
        setHeaders this content replace w = Ok (r, w') ->
        r = RObj this
        /\ own_headers w'
        /\ (exists c', heap w' !! this = Some (CCollection c')
                       /\ collection c' = collection c
                       /\ kuzzle c' = kuzzle c
                       /\ own_methods c' = own_methods c)
        /\ (forall k s, heap w !! k = Some (CKuzzle s) ->
                        heap w' !! k = Some (CKuzzle s)
                        /\ heap w' !! k_headers s = heap w !! k_headers s)
        /\ (forall l c2, l <> this ->
                         heap w !! l = Some (CCollection c2) ->
                         heap w' !! l = Some (CCollection c2)
                         /\ heap w' !! headers c2 = heap w !! headers c2)
        /\ queries w' = queries w /\ pending w' = pending w
        /\ rooms w' = rooms w /\ network w' = network w /\ invoked w' = invoked w).
Proof.
  split.
  - intros. now apply new_keeps_own_headers.
  - intros. eapply setHeaders_frame; eauto.
Qed.

End Headers.

Section Rooms.
Context `{Collaborators}.

Lemma subscribed_set_heap c f sn h (m : gmap positive cell) (w : world) :
  Registry.subscribed c f sn h (set_heap m w)
  = set_heap m (Registry.subscribed c f sn h w).
Proof.
  unfold Registry.subscribed, Registry.created. cbn [rooms set_heap].
  destruct (rooms w !! _) as [r|]; [destruct (Registry.is_active r)|]; reflexivity.
Qed.

(** [subscribe] with a function: a new room handle, subscribed through the
    registry. *)
Lemma subscribe_result (w : world) (this : loc) (c : collection_obj)
  (s : session_obj) (hs : list (string * value)) (filters cb options : value) :
  is_collection w this c s hs ->
  is_function cb = true ->
  subscribe this filters cb options w
  = Ok (RObj (fresh (dom (heap w))),
        set_heap (<[fresh (dom (heap w)) :=
                      CRoom (RoomHandle this options
                               (Some (roomId (collection c) filters (subscribeToSelf options),
                                      next_callback w)))]> (heap w))
                 (Registry.subscribed (collection c) filters
                                      (subscribeToSelf options) cb w)).
Proof.
  intros Hw Hf. unfold subscribe.
  unfold bind at 1. rewrite (self_ok _ _ _ _ _ Hw).
  unfold bind at 1. unfold Kuzzle.callbackRequired. rewrite Hf. cbn [ret].
  unfold bind at 1. unfold KuzzleRoom.new, alloc.
  unfold bind at 1. unfold KuzzleRoom.renew.
  unfold bind at 1. unfold the_room. cbn [heap set_heap].
  rewrite lookup_insert_eq.
  unfold bind at 1. unfold the_collection. cbn [heap set_heap rh_collection].
  destruct Hw as (Hc & Hk & Hh).
  rewrite lookup_insert_ne
    by (intros E; rewrite <- E, fresh_unused in Hc; discriminate Hc).
  rewrite Hc.
  unfold bind at 1. unfold Registry.subscribe.
  unfold bind at 1. unfold store. unfold ret. cbn [rh_collection rh_options].
  rewrite subscribed_set_heap. cbn [heap set_heap next_callback].
  rewrite insert_insert_eq. reflexivity.
Qed.

Lemma is_collection_alloc (w0 w : world) (this l : loc) (c : collection_obj)
  (s : session_obj) (hs : list (string * value)) (x : cell) :
  is_collection w this c s hs ->
  heap w !! l = None ->
  heap w0 = <[l := x]> (heap w) ->
  is_collection w0 this c s hs.
Proof.
  intros (Hc & Hk & Hh) Hl E. unfold is_collection. rewrite E.
  rewrite !lookup_insert_ne by congruence. auto.
Qed.

Lemma subscribed_new c f sn h (w : world) :
  rooms w !! roomId c f sn = None ->
  Registry.subscribed c f sn h w = Registry.created c f sn h w.
Proof. intros E. unfold Registry.subscribed. now rewrite E. Qed.

(** The second subscription to an ACTIVE room: the handler is added, and
    nothing else changes but the callbackId counter. *)
Lemma subscribed_active c f sn h (w : world) (r : Room) :
  rooms w !! roomId c f sn = Some r ->
  Registry.is_active r = true ->
  Registry.subscribed c f sn h w
  = Registry.set_registry
      (<[roomId c f sn := Registry.add_callback (next_callback w) h r]> (rooms w))
      (channels w) (S (next_callback w)) (network w) w.
Proof. intros E Ha. unfold Registry.subscribed. now rewrite E, Ha. Qed.

Lemma acknowledged_subscribing (id : nat) (ch : string) (w : world) (r : Room) :
  rooms w !! id = Some r ->
  room_status r = SUBSCRIBING ->
  Registry.acknowledged id ch w
  = Registry.set_registry
      (<[id := MkRoom (room_collection r) (room_filters r) (room_selfNotify r)
                      (room_callbacks r) ACTIVE (Some ch)]> (rooms w))
      (<[ch := id]> (channels w)) (next_callback w) (network w) w.
Proof. intros E Hs. unfold Registry.acknowledged. now rewrite E, Hs. Qed.

Lemma notified_active (id : nat) (ch : string) (payload : value) (w : world)
  (r : Room) :
  channels w !! ch = Some id ->
  rooms w !! id = Some r ->
  Registry.is_active r = true ->
  room_channel r = Some ch ->
  Registry.notified ch payload w
  = set_invoked (invoked w ++ flat_map (Registry.run_handler payload) (room_callbacks r)) w.
Proof.
  intros Ec Er Ha Hch. unfold Registry.notified.
  now rewrite Ec, Er, Ha, bool_decide_eq_true_2.
Qed.

(** C1.  Two [subscribe] calls with the same collection, filters and
    subscribe-to-self flag, the second made when the room of the first is
    ACTIVE: one network subscribe call is issued in all, the second call
    adds its handler to the callbacks of the room, and a notification on
    the room's channel calls both handlers. *)
Theorem duplicate_subscription (w : world) (this : loc) (c : collection_obj)
  (s : session_obj) (hs : list (string * value))
  (filters options options' : value) (f1 f2 : nat) (channel : string)
  (payload : value) :
  is_collection w this c s hs ->
  rooms w !! roomId (collection c) filters (subscribeToSelf options) = None ->
  subscribeToSelf options' = subscribeToSelf options ->
  let id := roomId (collection c) filters (subscribeToSelf options) in
  exists r1 w1 w2 r2 w3 w4 room,
    subscribe this filters (VFun f1) options w = Ok (RObj r1, w1)
    /\ network w1 = network w ++ [NetSubscribe id]
    /\ Registry.acknowledge id channel w1 = Ok (tt, w2)
    /\ (exists room2, rooms w2 !! id = Some room2 /\ room_status room2 = ACTIVE)
    /\ subscribe this filters (VFun f2) options' w2 = Ok (RObj r2, w3)
    /\ network w3 = network w ++ [NetSubscribe id]
    /\ rooms w3 !! id = Some room
    /\ room_status room = ACTIVE
    /\ room_callbacks room
       = [(next_callback w, VFun f1); (S (next_callback w), VFun f2)]
    /\ Registry.notify channel payload w3 = Ok (tt, w4)
    /\ invoked w4 = invoked w ++ [Invoke f1 [payload]; Invoke f2 [payload]].
Proof.
  intros Hw Hnone Hsn id.
  pose proof (subscribe_result w this c s hs filters (VFun f1) options Hw eq_refl)
    as H1.
  rewrite (subscribed_new _ _ _ _ _ Hnone) in H1. fold id in H1.
  set (r1 := fresh (dom (heap w))) in *.
  match type of H1 with _ = Ok (_, ?x) => set (w1 := x) in * end.
  assert (Hr1 : rooms w1 !! id
                = Some (MkRoom (collection c) filters (subscribeToSelf options)
                               [(next_callback w, VFun f1)] SUBSCRIBING None))
    by apply lookup_insert_eq.
  pose proof (acknowledged_subscribing id channel w1 _ Hr1 eq_refl) as H2.
  cbn [room_collection room_filters room_selfNotify room_callbacks] in H2.
  match type of H2 with _ = ?x => set (w2 := x) in * end.
  assert (Hw2 : is_collection w2 this c s hs).
  { eapply (is_collection_alloc w2 w this r1); [exact Hw | apply fresh_unused |].
    reflexivity. }
  assert (Hr2 : rooms w2 !! roomId (collection c) filters (subscribeToSelf options')
                = Some (MkRoom (collection c) filters (subscribeToSelf options)
                               [(next_callback w, VFun f1)] ACTIVE (Some channel))).
  { rewrite Hsn. apply lookup_insert_eq. }
  pose proof (subscribe_result w2 this c s hs filters (VFun f2) options' Hw2 eq_refl)
    as H3.
  rewrite (subscribed_active _ _ _ _ _ _ Hr2 eq_refl) in H3.
  rewrite Hsn in H3. fold id in H3.
  match type of H3 with _ = Ok (RObj ?r, ?x) => set (r2 := r) in *; set (w3 := x) in * end.
  assert (Hr3 : rooms w3 !! id
                = Some (Registry.add_callback (next_callback w2) (VFun f2)
                          (MkRoom (collection c) filters (subscribeToSelf options)
                                  [(next_callback w, VFun f1)] ACTIVE (Some channel))))
    by apply lookup_insert_eq.
  assert (Hc3 : channels w3 !! channel = Some id) by apply lookup_insert_eq.
  pose proof (notified_active id channel payload w3 _ Hc3 Hr3 eq_refl eq_refl) as H4.
  eexists r1, w1, w2, r2, w3, (Registry.notified channel payload w3), _.
  split; [exact H1|]. split; [reflexivity|].
  split; [unfold Registry.acknowledge; now rewrite H2|].
  split; [eexists; split; [apply lookup_insert_eq | reflexivity]|].
  split; [exact H3|]. split; [reflexivity|].
  split; [exact Hr3|]. split; [reflexivity|]. split; [reflexivity|].
  split; [reflexivity|].
  rewrite H4. reflexivity.
Qed.

Lemma subscribed_registers c f sn h (w : world) :
  exists room,
    rooms (Registry.subscribed c f sn h w) !! roomId c f sn = Some room
    /\ (next_callback w, h) ∈ room_callbacks room.
Proof.
  unfold Registry.subscribed, Registry.created.
  destruct (rooms w !! roomId c f sn) as [r|]; [destruct (Registry.is_active r)|];
    cbn [rooms Registry.set_registry]; rewrite lookup_insert_eq;
    eexists; (split; [reflexivity|]); cbn [room_callbacks Registry.add_callback];
    set_solver.
Qed.

(** After [unsubscribe(roomId, callbackId)] the callback is in no room
    under that id. *)
Lemma unsubscribed_removes (id cbid : nat) (w : world) (room : Room) (h : value) :
  rooms (Registry.unsubscribed id cbid w) !! id = Some room ->
  (cbid, h) ∉ room_callbacks room.
Proof.
  unfold Registry.unsubscribed.
  destruct (rooms w !! id) as [r|] eqn:Hr.
  - destruct (filter _ (room_callbacks r)) as [|p cbs] eqn:Hf;
      cbn [rooms Registry.set_registry].
    + rewrite lookup_delete_eq. discriminate.
    + rewrite lookup_insert_eq. intros E. injection E as <-.
      cbn [room_callbacks]. rewrite <- Hf. rewrite list_elem_of_filter.
      cbn. tauto.
  - rewrite Hr. discriminate.
Qed.

(** A room made for one handler is discarded when the handler leaves. *)
Lemma unsubscribed_created c f sn h (w : world) :
  Registry.unsubscribed (roomId c f sn) (next_callback w) (Registry.created c f sn h w)
  = Registry.set_registry
      (base.delete (roomId c f sn) (rooms (Registry.created c f sn h w)))
      (channels w) (S (next_callback w))
      (network w ++ [NetSubscribe (roomId c f sn); NetUnsubscribe (roomId c f sn)])
      (Registry.created c f sn h w).
Proof.
  unfold Registry.unsubscribed. unfold Registry.created at 1.
  cbn [rooms Registry.set_registry]. rewrite lookup_insert_eq.
  cbn [room_callbacks room_channel].
  rewrite filter_cons. cbn [fst]. rewrite decide_False by tauto.
  rewrite filter_nil. unfold Registry.created.
  cbn [channels network next_callback Registry.set_registry].
  rewrite <- app_assoc. reflexivity.
Qed.

Lemma unsubscribed_set_heap id cbid (m : gmap positive cell) (w : world) :
  Registry.unsubscribed id cbid (set_heap m w)
  = set_heap m (Registry.unsubscribed id cbid w).
Proof.
  unfold Registry.unsubscribed. cbn [rooms set_heap].
  destruct (rooms w !! id) as [r|]; [destruct (filter _ _)|]; reflexivity.
Qed.

(** C6.  [subscribe] requires its callback: it throws without a function.
    With one it returns a room handle, a new object that is not the
    collection, whose [unsubscribe] takes the callback out of the room (and
    discards a room it was alone in, with a network unsubscribe). *)
Theorem subscribe_returns_room_handle (w : world) (this : loc) (c : collection_obj)
  (s : session_obj) (hs : list (string * value)) (filters cb options : value) :
  is_collection w this c s hs ->
  (is_function cb = false ->
   subscribe this filters cb options w
   = Throw (Error "KuzzleDataCollection.subscribe"))
  /\ (is_function cb = true ->
      exists r w' id cbid,
        subscribe this filters cb options w = Ok (RObj r, w')
        /\ id = roomId (collection c) filters (subscribeToSelf options)
        /\ r <> this
        /\ heap w !! r = None
        /\ heap w' !! r = Some (CRoom (RoomHandle this options (Some (id, cbid))))
        /\ (exists room, rooms w' !! id = Some room
                         /\ (cbid, cb) ∈ room_callbacks room)
        /\ exists w'',
            KuzzleRoom.unsubscribe r w' = Ok (r, w'')
            /\ heap w'' !! r = Some (CRoom (RoomHandle this options None))
            /\ (forall room h, rooms w'' !! id = Some room ->
                               (cbid, h) ∉ room_callbacks room)
            /\ (rooms w !! id = None ->
                rooms w'' !! id = None
                /\ network w'' = network w ++ [NetSubscribe id; NetUnsubscribe id])).
Proof.
  intros Hw. split.
  - intros Hf. unfold subscribe. unfold bind at 1. rewrite (self_ok _ _ _ _ _ Hw).
    unfold bind at 1. unfold Kuzzle.callbackRequired. now rewrite Hf.
  - intros Hf.
    pose proof (subscribe_result w this c s hs filters cb options Hw Hf) as H1.
    set (r := fresh (dom (heap w))) in *.
    set (id := roomId (collection c) filters (subscribeToSelf options)) in *.
    match type of H1 with _ = Ok (_, ?x) => set (w' := x) in * end.
    assert (Hfresh : heap w !! r = None) by apply fresh_unused.
    exists r, w', id, (next_callback w).
    split; [exact H1|]. split; [reflexivity|].
    split; [intros ->; destruct Hw as (Hc & _); congruence|].
    split; [exact Hfresh|].
    assert (Hr : heap w' !! r
                 = Some (CRoom (RoomHandle this options (Some (id, next_callback w)))))
      by apply lookup_insert_eq.
    split; [exact Hr|].
    split; [apply subscribed_registers|].
    eexists. split.
    { unfold KuzzleRoom.unsubscribe. unfold bind at 1. unfold the_room.
      rewrite Hr. cbn [rh_subscription]. unfold bind at 1.
      unfold Registry.unsubscribe. unfold bind at 1. unfold store, ret.
      cbn [rh_collection rh_options]. reflexivity. }
    cbn [heap set_heap]. split; [apply lookup_insert_eq|]. split.
    + intros room h. cbn [rooms set_heap]. apply unsubscribed_removes.
    + intros Hnone. subst w'. unfold id in *.
      rewrite (subscribed_new _ _ _ _ _ Hnone).
      rewrite unsubscribed_set_heap, unsubscribed_created.
      cbn [rooms network set_heap Registry.set_registry].
      split; [apply lookup_delete_eq | reflexivity].
Qed.

End Rooms.

Section Concealment.

(** C4.  The session reference of a Profile is held by a property defined
    through [Reflect.defineProperty], which is not enumerable (nor
    writable); the accessor [kuzzle] reads it; [serialize] returns an
    object with exactly the fields [_id], [rateLimit] and [policies], the
    same for any two session references. *)
Theorem Profile_serialize_conceals_session (k1 k2 _id content : value) :
  exists p1 p2,
    Profile.new k1 _id content = Ok p1
    /\ Profile.new k2 _id content = Ok p2
    /\ Profile.serialize p1 = Profile.serialize p2
    /\ (exists a b c,
          Profile.serialize p1 = VObj [("_id", a); ("rateLimit", b); ("policies", c)])
    /\ Profile.own "_kuzzle" p1 = Some (Profile.Descriptor k1 false false false)
    /\ Profile.keys p1 = ["_id"; "rateLimit"; "policies"]
    /\ Profile.kuzzle p1 = k1.
Proof.
  eexists _, _. split; [reflexivity|]. split; [reflexivity|].
  repeat split; try reflexivity.
  do 3 eexists; reflexivity.
Qed.

End Concealment.

(** ** The theorems on the sample session *)

Lemma books_is_collection :
  is_collection Sample.books 4%positive Sample.books_collection Sample.kuzzle
                Sample.token.
Proof. repeat split; reflexivity. Qed.










Lemma fetchAllDocuments_is_advancedSearch_witness :
  is_function (snd (shift (VFun 7) VUndef)) = true
  /\ fetchAllDocuments (H := Sample.collaborators) 4%positive (VFun 7) VUndef Sample.books
     = advancedSearch (H := Sample.collaborators) 4%positive (VObj []) (VFun 7) VUndef
                      Sample.books.
Proof.
  split; [reflexivity|].
  apply (fetchAllDocuments_is_advancedSearch (H := Sample.collaborators)
           Sample.books 4%positive (VFun 7) VUndef).
  reflexivity.
Defined.

Lemma constructor_promisifies_witness :
  heap (Sample.session (VObj [])) !! 1%positive
  = Some (CKuzzle (Session 2%positive (VObj [])))
  /\ heap (Sample.session (VObj [])) !! 2%positive = Some (CPlain Sample.token)
  /\ exists this w' c,
      new (H := Sample.collaborators) 1%positive (VStr "books")
          (Sample.session (VObj [])) = Ok (this, w')
      /\ heap w' !! this = Some (CCollection c)
      /\ Forall (fun m => String.append m "Promise" ∈ methods c) asynchronous
      /\ Forall (fun m => String.append m "Promise" ∉ methods c) blacklist.
Proof.
  split; [reflexivity|]. split; [reflexivity|].
  destruct (constructor_promisifies (H := Sample.collaborators) 1%positive
              (VStr "books") (Sample.session (VObj []))
              (Session 2%positive (VObj [])) Sample.token eq_refl eq_refl)
    as (this & w' & c & Hn & Hc & _ & _ & _ & Hp & _).
  destruct (Hp eq_refl) as (Ha & Hb & _).
  exists this, w', c. auto.
Defined.

Lemma chaining_and_identity_witness :
  exists w',
    invoke (H := Sample.collaborators) 4%positive (Truncate VUndef VUndef) Sample.books
    = Ok (RObj 4%positive, w')
    /\ exists c', heap w' !! 4%positive = Some (CCollection c')
                  /\ collection c' = VStr "books" /\ kuzzle c' = 1%positive.
Proof.
  destruct (invoke (H := Sample.collaborators) 4%positive (Truncate VUndef VUndef)
              Sample.books) as [[r w']|e] eqn:E.
  - destruct (chaining_and_identity (H := Sample.collaborators) Sample.books w'
                4%positive (Truncate VUndef VUndef) r E) as [Hr Hk].
    exists w'. rewrite (Hr eq_refl). split; [reflexivity|].
    exact (Hk 4%positive Sample.books_collection eq_refl).
  - vm_compute in E. discriminate E.
Defined.

Lemma session_own_headers (bluebird : value) : own_headers (Sample.session bluebird).
Proof.
  unfold own_headers, Sample.session. cbn [heap].
  assert (Hno : forall l c,
             ({[ 1%positive := CKuzzle (Session 2%positive bluebird);
                 2%positive := CPlain Sample.token ]} : gmap positive cell) !! l
             = Some (CCollection c) -> False).
  { intros l c. rewrite lookup_insert. case_decide; [discriminate|].
    rewrite lookup_singleton. case_decide; discriminate. }
  repeat split.
  - intros l c E. destruct (Hno _ _ E).
  - intros k s. rewrite lookup_insert. case_decide.
    + intros E. injection E as <-. exists Sample.token. reflexivity.
    + rewrite lookup_singleton. case_decide; discriminate.
  - intros l1 l2 c1 c2 E. destruct (Hno _ _ E).
  - intros l c k s E. destruct (Hno _ _ E).
Qed.

Lemma own_headers_frame_witness :
  own_headers (Sample.session VUndef)
  /\ new (H := Sample.collaborators) 1%positive (VStr "books") (Sample.session VUndef)
     = Ok (4%positive, Sample.books)
  /\ own_headers Sample.books
  /\ exists w',
      setHeaders 4%positive
                 (VObj [("lang", VStr "fr")]) (VBool false) Sample.books
      = Ok (RObj 4%positive, w')
      /\ heap w' !! 1%positive = Some (CKuzzle Sample.kuzzle)
      /\ heap w' !! 2%positive = Some (CPlain Sample.token)
      /\ heap w' !! 3%positive
         = Some (CPlain [("authorization", VStr "token"); ("lang", VStr "fr")]).
Proof.
  pose proof (@own_headers_frame Sample.collaborators) as [Hnew Hset].
  assert (Hs : own_headers (Sample.session VUndef)) by apply session_own_headers.
  assert (Hb : own_headers Sample.books).
  { destruct (Hnew (Sample.session VUndef) 1%positive Sample.kuzzle Sample.token
                (VStr "books") Hs eq_refl eq_refl)
      as (this & w1 & c & E & Hown & _).
    vm_compute in E. injection E as _ <-. exact Hown. }
  split; [exact Hs|]. split; [vm_compute; reflexivity|]. split; [exact Hb|].
  destruct (setHeaders 4%positive
              (VObj [("lang", VStr "fr")]) (VBool false) Sample.books)
    as [[r w']|e] eqn:E.
  - destruct (Hset Sample.books w' 4%positive Sample.books_collection
                (VObj [("lang", VStr "fr")]) (VBool false) r Hb eq_refl E)
      as (-> & _ & _ & Hk & _).
    exists w'. split; [reflexivity|].
    destruct (Hk 1%positive Sample.kuzzle eq_refl) as [Hk1 Hk2].
    split; [exact Hk1|]. split; [exact Hk2|].
    vm_compute in E. injection E as <-. reflexivity.
  - vm_compute in E. discriminate E.
Defined.

Lemma duplicate_subscription_witness :
  is_collection Sample.books 4%positive Sample.books_collection Sample.kuzzle
                Sample.token
  /\ rooms Sample.books
       !! roomId (Collaborators := Sample.collaborators) (VStr "books") (VObj [])
                 (subscribeToSelf (Collaborators := Sample.collaborators) (VObj []))
     = None
  /\ exists w3 w4,
      network w3 = [NetSubscribe 21]
      /\ Registry.notify "ch" (VStr "hello") w3 = Ok (tt, w4)
      /\ invoked w4 = [Invoke 1 [VStr "hello"]; Invoke 2 [VStr "hello"]].
Proof.
  split; [exact books_is_collection|]. split; [reflexivity|].
  destruct (duplicate_subscription (H := Sample.collaborators) Sample.books 4%positive
              Sample.books_collection Sample.kuzzle Sample.token
              (VObj []) (VObj []) VUndef 1 2 "ch" (VStr "hello")
              books_is_collection eq_refl eq_refl)
    as (r1 & w1 & w2 & r2 & w3 & w4 & room & _ & _ & _ & _ & _ & Hn & _ & _ & _ & Hy & Hi).
  exists w3, w4. auto.
Defined.

Lemma subscribe_returns_room_handle_witness :
  is_collection Sample.books 4%positive Sample.books_collection Sample.kuzzle
                Sample.token
  /\ subscribe (H := Sample.collaborators) 4%positive (VObj []) VUndef VUndef Sample.books
     = Throw (Error "KuzzleDataCollection.subscribe")
  /\ exists r w' w'',
      subscribe (H := Sample.collaborators) 4%positive (VObj []) (VFun 1) VUndef
                Sample.books = Ok (RObj r, w')
      /\ r <> 4%positive
      /\ KuzzleRoom.unsubscribe r w' = Ok (r, w'')
      /\ network w'' = [NetSubscribe 21; NetUnsubscribe 21].
Proof.
  split; [exact books_is_collection|].
  destruct (subscribe_returns_room_handle (H := Sample.collaborators) Sample.books
              4%positive Sample.books_collection Sample.kuzzle Sample.token
              (VObj []) VUndef VUndef books_is_collection) as [Hthrow _].
  split; [exact (Hthrow eq_refl)|].
  destruct (subscribe_returns_room_handle (H := Sample.collaborators) Sample.books
              4%positive Sample.books_collection Sample.kuzzle Sample.token
              (VObj []) (VFun 1) VUndef books_is_collection) as [_ Hok].
  destruct (Hok eq_refl)
    as (r & w' & id & cbid & Hs & Hid & Hne & _ & _ & _ & w'' & Hu & _ & _ & Hround).
  exists r, w', w''. split; [exact Hs|]. split; [exact Hne|]. split; [exact Hu|].
  vm_compute in Hid. subst id. destruct (Hround eq_refl) as [_ Hn]. exact Hn.
Defined.

(** * Further properties of the code *)

Section ProfileFields.

Lemma get_default_null (c : value) (key : string) :
  get (Profile.default_null c) key = get c key.
Proof. destruct c; reflexivity. Qed.

(** The object a constructor call builds. *)
Lemma Profile_new_fields (k _id content : value) :
  Profile.new k _id content
  = Ok [ ("_kuzzle", Profile.Descriptor k false false false);
         ("_id", Profile.Descriptor (Profile.default_null _id) true true true);
         ("rateLimit",
          Profile.Descriptor
            (if truthy (Profile.default_null content)
                && truthy (get (Profile.default_null content) "rateLimit")
             then get (Profile.default_null content) "rateLimit" else VNum 0)
            true true true);
         ("policies",
          Profile.Descriptor
            (if truthy (Profile.default_null content)
                && truthy (get (Profile.default_null content) "policies")
             then get (Profile.default_null content) "policies" else VArr [])
            true true true) ].
Proof. reflexivity. Qed.

(** X1.  Whatever the content, a constructed Profile has a rate limit that
    is 0 or truthy and policies that are truthy, and an omitted or null
    content (or one without the fields) gives the defaults: rate limit 0 and
    no policy; an omitted id is null. *)
Theorem Profile_defaults (k _id content : value) :
  exists p,
    Profile.new k _id content = Ok p
    /\ (Profile.read p "rateLimit" = VNum 0 \/ truthy (Profile.read p "rateLimit") = true)
    /\ truthy (Profile.read p "policies") = true
    /\ (truthy content = false ->
        Profile.read p "rateLimit" = VNum 0 /\ Profile.read p "policies" = VArr [])
    /\ (truthy (get content "rateLimit") = false -> Profile.read p "rateLimit" = VNum 0)
    /\ (truthy (get content "policies") = false -> Profile.read p "policies" = VArr [])
    /\ (_id = VUndef -> Profile.read p "_id" = VNull).
Proof.
  eexists. split; [apply Profile_new_fields|].
  cbn [Profile.read Profile.own String.eqb Ascii.eqb Bool.eqb Profile.d_value].
  assert (Hn : forall c key, truthy c = false ->
                 truthy (Profile.default_null c)
                 && truthy (get (Profile.default_null c) key) = false).
  { intros c key Hc. destruct c; try discriminate Hc; cbn in *;
      rewrite ?Hc; reflexivity. }
  assert (Hg : forall c key, truthy (get c key) = false ->
                 truthy (Profile.default_null c)
                 && truthy (get (Profile.default_null c) key) = false).
  { intros c key Hc. destruct c; cbn in *; rewrite ?Hc, ?andb_false_r; reflexivity. }
  split.
  { destruct (truthy (Profile.default_null content)
              && truthy (get (Profile.default_null content) "rateLimit")) eqn:E;
      [right; now apply andb_true_iff in E | left; reflexivity]. }
  split.
  { destruct (truthy (Profile.default_null content)
              && truthy (get (Profile.default_null content) "policies")) eqn:E;
      [now apply andb_true_iff in E | reflexivity]. }
  split; [intros Hc; now rewrite !Hn|].
  split; [intros Hc; now rewrite Hg|].
  split; [intros Hc; now rewrite Hg|].
  intros ->. reflexivity.
Qed.

(** X2.  Round trip: a Profile built again from what [serialize] returned
    (for any session) serializes to the same object. *)
Theorem Profile_serialize_round_trip (k k' _id content : value) :
  exists p p',
    Profile.new k _id content = Ok p
    /\ Profile.new k' (get (Profile.serialize p) "_id") (Profile.serialize p) = Ok p'
    /\ Profile.serialize p' = Profile.serialize p.
Proof.
  eexists _, _. split; [apply Profile_new_fields|].
  split; [apply Profile_new_fields|].
  cbn [Profile.serialize Profile.read Profile.own String.eqb Ascii.eqb Bool.eqb
       Profile.d_value Profile.default_null get assoc default truthy andb].
  set (c := Profile.default_null content).
  assert (Hid : Profile.default_null (Profile.default_null _id) = Profile.default_null _id)
    by (destruct _id; reflexivity).
  unfold id. rewrite Hid.
  destruct (truthy c && truthy (get c "rateLimit")) eqn:Er;
    destruct (truthy c && truthy (get c "policies")) eqn:Ep;
    try (apply andb_true_iff in Er as [_ Er]; rewrite Er);
    try (apply andb_true_iff in Ep as [_ Ep]; rewrite Ep);
    reflexivity.
Qed.

End ProfileFields.

Section ProfileGetRoles.

Lemma role_ids_spec (ps : list value) :
  ProfileRoles.role_ids ps
  = if forallb (fun p => negb (Closures.is_nullish p)) ps
    then Ok (map (fun p => get p "roleId") ps)
    else Throw TypeError.
Proof.
  induction ps as [|p ps IH]; [reflexivity|].
  cbn [ProfileRoles.role_ids forallb map]. rewrite IH.
  destruct p; cbn; try reflexivity;
    destruct (forallb _ ps); reflexivity.
Qed.

(** X3.  A Profile built from a content without policies (none, a falsy
    value or an empty array) answers [getRoles] with a promise resolved with
    the empty array, whatever its session is: the API is not called. *)
Theorem getRoles_without_policies (k _id content options : value) :
  truthy (get content "policies") = false \/ get content "policies" = VArr [] ->
  exists p,
    Profile.new k _id content = Ok p
    /\ ProfileRoles.getRoles p options = Some (Ok (ProfileRoles.Resolved (VArr []))).
Proof.
  intros Hp. eexists. split; [apply Profile_new_fields|].
  unfold ProfileRoles.getRoles.
  cbn [Profile.read Profile.own String.eqb Ascii.eqb Bool.eqb Profile.d_value].
  assert (E : (if truthy (Profile.default_null content)
                  && truthy (get (Profile.default_null content) "policies")
               then get (Profile.default_null content) "policies" else VArr [])
              = VArr []).
  { rewrite get_default_null. destruct Hp as [Hp|Hp]; rewrite Hp.
    - now rewrite andb_false_r.
    - now destruct (truthy (Profile.default_null content) && truthy (VArr [])). }
  rewrite E. reflexivity.
Qed.

(** X4.  A Profile built with a non-empty array of policies, on a session
    whose [security.mGetRoles] is a function, answers [getRoles] with what
    that function returns for the role ids of the policies, in their order,
    and the options ([{}] when omitted); a null or undefined policy makes it
    throw a TypeError instead. *)
Theorem getRoles_requests_role_ids (k _id content options : value)
  (ps : list value) (g : nat) :
  get content "policies" = VArr ps ->
  ps <> [] ->
  get (get k "security") "mGetRoles" = VFun g ->
  exists p,
    Profile.new k _id content = Ok p
    /\ ProfileRoles.getRoles p options
       = Some (if forallb (fun x => negb (Closures.is_nullish x)) ps
               then Ok (ProfileRoles.ReturnedBy g
                          [VArr (map (fun x => get x "roleId") ps);
                           ProfileRoles.default_object options])
               else Throw TypeError).
Proof.
  intros Hp Hne Hg. eexists. split; [apply Profile_new_fields|].
  unfold ProfileRoles.getRoles, Profile.kuzzle.
  cbn [Profile.read Profile.own String.eqb Ascii.eqb Bool.eqb Profile.d_value].
  assert (E : (if truthy (Profile.default_null content)
                  && truthy (get (Profile.default_null content) "policies")
               then get (Profile.default_null content) "policies" else VArr [])
              = VArr ps).
  { rewrite get_default_null, Hp.
    destruct content; cbn in Hp; try discriminate Hp. reflexivity. }
  rewrite E. cbn [truthy negb ProfileRoles.zero_length].
  destruct ps as [|p0 ps]; [congruence|].
  assert (Hk : getprop k "security" = Ok (get k "security")).
  { destruct k; cbn in Hg; try discriminate Hg; reflexivity. }
  assert (Hs : getprop (get k "security") "mGetRoles" = Ok (VFun g)).
  { destruct (get k "security"); cbn in Hg; try discriminate Hg; now rewrite <- Hg. }
  rewrite Hk, Hs. cbn [ProfileRoles.mapped]. rewrite role_ids_spec.
  destruct (forallb _ (p0 :: ps)); reflexivity.
Qed.

End ProfileGetRoles.

Section OptionalArguments.
Context `{Collaborators}.

Lemma shift_settled (options cb : value) :
  shift (fst (shift options cb)) (snd (shift options cb)) = shift options cb.
Proof.
  unfold shift.
  destruct (negb (truthy cb) && is_function options) eqn:E; cbn [fst snd].
  - apply andb_true_iff in E as [_ E]. destruct options; try discriminate E.
    reflexivity.
  - now rewrite E.
Qed.

(** X5.  [options] is optional: a method given its callback in the place of
    [options] does what it does when given null options and the callback.
    In general a call and the call with [(options, cb)] already moved into
    place have the same result and the same effect on the store. *)
Theorem callback_in_place_of_options (this : loc) (o : operation) (w : world) :
  invoke this (Calls.settled o) w = invoke this o w
  /\ (forall g cb, truthy cb = false -> shift (VFun g) cb = (VNull, VFun g))
  /\ (forall g, shift VNull (VFun g) = (VNull, VFun g)).
Proof.
  split; [|split; [intros g cb Hc; unfold shift; now rewrite Hc | reflexivity]].
  destruct o; cbn [invoke Calls.settled]; try reflexivity;
    unfold advancedSearch, count, create, createDocument, delete, deleteDocument,
      fetchDocument, fetchAllDocuments, getMapping, putMapping,
      replaceDocument, truncate, updateDocument;
    rewrite shift_settled; reflexivity.
Qed.

(** X7.  The methods that call [callbackRequired] (advancedSearch, count,
    fetchDocument, fetchAllDocuments, getMapping, subscribe) throw when they
    are not given a function, each under the prefix it passes
    ([fetchDocument] as [KuzzleDataCollection.fetch], [fetchAllDocuments] as
    [KuzzleDataCollection.fetchAll]); nothing is handed to the session. *)
Theorem callback_is_required (w : world) (this : loc) (c : collection_obj)
  (s : session_obj) (hs : list (string * value)) (o : operation)
  (prefix : string) (cb : value) :
  is_collection w this c s hs ->
  Calls.required_callback o = Some (prefix, cb) ->
  is_function cb = false ->
  invoke this o w = Throw (Error prefix).
Proof.
  intros Hw Ho Hf.
  destruct o; try discriminate Ho; cbn in Ho; injection Ho as <- <-; cbn [invoke];
    unfold advancedSearch, count, fetchDocument, fetchAllDocuments, getMapping,
      subscribe;
    try destruct (shift options cb0) as [o' c']; cbn [snd] in Hf;
    unfold bind at 1; rewrite (self_ok _ _ _ _ _ Hw);
    unfold bind at 1; unfold Kuzzle.callbackRequired; rewrite Hf; reflexivity.
Qed.

End OptionalArguments.

Section Requests.
Context `{Collaborators}.

Lemma request_sent (w : world) (this : loc) (c : collection_obj)
  (s : session_obj) (hs : list (string * value)) (o : operation) :
  is_collection w this c s hs ->
  Calls.dispatches o = true ->
  Calls.callback_given o = true ->
  exists q data w',
    invoke this o w = Ok (RObj this, w')
    /\ queries w' = queries w ++ [(kuzzle c, q)]
    /\ pending w' = <[next_request w := q]> (pending w)
    /\ q_collection q = collection c
    /\ q_query q = addHeaders data (VObj hs)
    /\ q_controller q ∈ ["read"; "write"; "admin"]
    /\ heap w' = heap w
    /\ invoked w' = invoked w
    /\ rooms w' = rooms w
    /\ network w' = network w.
Proof.
  intros Hw Ho Hg.
  destruct o; try discriminate Ho; unfold Calls.callback_given in Hg; cbn in Hg;
    cbn [invoke].
  all: try rewrite (fetchAllDocuments_unfold _ _ _ _ Hg).
  all: unfold advancedSearch, count, create, createDocument, delete, deleteDocument,
         fetchDocument, publish, replaceDocument, truncate, updateDocument;
    try destruct (shift options cb) as [o' c']; cbn [snd] in Hg;
    unfold bind at 1; rewrite (self_ok _ _ _ _ _ Hw);
    try (unfold bind at 1; unfold Kuzzle.callbackRequired at 1;
         rewrite Hg; cbn [ret]);
    unfold bind at 1; rewrite (with_headers_ok _ _ _ _ _ _ Hw);
    unfold bind at 1; destruct Hw as (_ & Hk & _);
    try destruct (truthy c');
    rewrite (query_ok _ _ _ _ Hk); cbn [ret];
    (eexists _, _, _; split; [reflexivity|]; cbn;
     repeat (split; [reflexivity|]); split; [set_solver|];
     repeat (split; [reflexivity|]); reflexivity).
Qed.


(** X6.  Each data method (search, count, create, createDocument, delete,
    deleteDocument, fetchDocument, fetchAllDocuments, publish,
    replaceDocument, truncate, updateDocument), given the callback it
    requires, hands exactly one request to the session of its collection,
    for the name of its collection, with the headers of its collection
    attached; it changes nothing in the heap, calls no caller's function and
    makes no subscription. *)
Theorem one_request_per_call (w : world) (this : loc) (c : collection_obj)
  (s : session_obj) (hs : list (string * value)) (o : operation) :
  is_collection w this c s hs ->
  Calls.dispatches o = true ->
  Calls.callback_given o = true ->
  exists q data w',
    invoke this o w = Ok (RObj this, w')
    /\ queries w' = queries w ++ [(kuzzle c, q)]
    /\ pending w' = <[next_request w := q]> (pending w)
    /\ q_collection q = collection c
    /\ q_query q = addHeaders data (VObj hs)
    /\ q_controller q ∈ ["read"; "write"; "admin"]
    /\ heap w' = heap w
    /\ invoked w' = invoked w
    /\ rooms w' = rooms w
    /\ network w' = network w.
Proof. apply request_sent. Qed.

End Requests.

Section Documents.
Context `{Collaborators}.

(** X10.  [documentFactory] throws a TypeError exactly on a null or
    undefined content.  Otherwise it makes a document of its collection with
    the id given; the content of the document is [content._source] when that
    is truthy and the content itself when not; its version is
    [content._version] when that is truthy and is not set when not (a
    version 0 is dropped). *)
Theorem documentFactory_shape (this : loc) (id content : value) :
  (Closures.is_nullish content = true ->
   Closures.documentFactory this id content = Throw TypeError)
  /\ (Closures.is_nullish content = false ->
      exists body version,
        Closures.documentFactory this id content = Ok (VDoc this id body version)
        /\ (truthy (get content "_source") = true -> body = get content "_source")
        /\ (truthy (get content "_source") = false -> body = content)
        /\ (truthy (get content "_version") = true -> version = get content "_version")
        /\ (truthy (get content "_version") = false -> version = VUndef)
        /\ (version = VUndef \/ truthy version = true)).
Proof.
  split.
  - destruct content; try discriminate; reflexivity.
  - intros Hc. unfold Closures.documentFactory. rewrite (getprop_ok _ _ Hc).
    destruct (truthy (get content "_source")) eqn:Es;
      destruct (truthy (get content "_version")) eqn:Ev;
      (eexists _, _; split; [reflexivity|]);
      repeat split; try discriminate; auto.
Qed.

Lemma documentFactory_document (this : loc) (id content : value) :
  Closures.is_nullish content = false ->
  exists body version,
    Closures.documentFactory this id content = Ok (VDoc this id body version).
Proof.
  intros Hc. unfold Closures.documentFactory. rewrite (getprop_ok _ _ Hc).
  destruct (truthy (get content "_source")), (truthy (get content "_version"));
    eexists _, _; reflexivity.
Qed.

Lemma documents_of_each (self : loc) (docs ds : list value) :
  Closures.documents_of self docs = Ok ds ->
  Forall2 (fun hit d =>
             Closures.documentFactory self (get hit "_id") hit = Ok d
             /\ exists body version, d = VDoc self (get hit "_id") body version)
          docs ds.
Proof.
  revert ds. induction docs as [|doc docs IH]; intros ds; cbn [Closures.documents_of].
  - intros E. injection E as <-. constructor.
  - destruct (getprop doc "_id") as [id|] eqn:Hid; [|discriminate].
    assert (Hn : Closures.is_nullish doc = false)
      by (destruct doc; try discriminate Hid; reflexivity).
    rewrite (getprop_ok _ _ Hn) in Hid. injection Hid as <-.
    destruct (documentFactory_document self (get doc "_id") doc Hn)
      as (body & version & Hd).
    rewrite Hd.
    destruct (Closures.documents_of self docs) as [ds'|]; [|discriminate].
    intros E. injection E as <-. constructor; eauto.
Qed.

(** X8.  On a successful search whose response holds an array of hits, none
    of them null, the callback of [advancedSearch] is called once with null
    and [{ total, documents }]: [total] is [result.hits.total], and
    [documents] has one document per hit, in the order of the hits, each
    made by [documentFactory] from the hit and its [_id] and so belonging to
    this collection. *)
Theorem search_documents (this : loc) (f : nat) (error result : value)
  (docs : list value) :
  truthy error = false ->
  Closures.is_nullish result = false ->
  get (get result "hits") "hits" = VArr docs ->
  forallb (fun doc => negb (Closures.is_nullish doc)) docs = true ->
  exists ds,
    Closures.run_callback (CbSearch this (VFun f)) error result
    = Ok [Invoke f [VNull; VObj [("total", get (get result "hits") "total");
                                 ("documents", VArr ds)]]]
    /\ List.length ds = List.length docs
    /\ Forall2 (fun hit d =>
                  Closures.documentFactory this (get hit "_id") hit = Ok d
                  /\ exists body version, d = VDoc this (get hit "_id") body version)
               docs ds.
Proof.
  intros He Hr Hh Hd.
  destruct (documents_of_ok this docs Hd) as [ds Hds].
  exists ds. cbn [Closures.run_callback]. rewrite He, (getprop_ok _ _ Hr).
  assert (Hn : Closures.is_nullish (get result "hits") = false)
    by (destruct (get result "hits"); try discriminate Hh; reflexivity).
  rewrite (getprop_ok _ _ Hn), Hh, Hds.
  split; [reflexivity|].
  pose proof (documents_of_each _ _ _ Hds) as Hall.
  split; [symmetry; exact (Forall2_length _ _ _ Hall) | exact Hall].
Qed.

(** X9.  A response the registered function cannot read never reaches the
    caller: for each function the collection methods build around a
    caller's function, the caller's function is called if and only if the
    error is truthy or the result is readable; otherwise the function throws
    a TypeError and calls nothing. *)
Theorem unreadable_response_throws (c : callback) (f : nat) (error result : value) :
  match c with
  | CbSearch _ cb | CbCount cb | CbDocument _ cb
  | CbDelete _ _ cb | CbUpdate _ cb => cb = VFun f
  | _ => False
  end ->
  (truthy error = true \/ Closures.readable c result = true ->
   exists args, Closures.run_callback c error result = Ok [Invoke f args])
  /\ (truthy error = false -> Closures.readable c result = false ->
      Closures.run_callback c error result = Throw TypeError).
Proof.
  intros Hc. split.
  - intros Hr.
    destruct (run_callback_once c f error result) as (args & Hrun & _);
      [destruct c; try contradiction; exact Hc | exact Hr | eauto].
  - intros He Hr.
    destruct c as [cb|sf cb|cb|sf cb|action data cb|sf cb|tag cb];
      try contradiction; subst cb; cbn [Closures.run_callback]; rewrite He;
      cbn [Closures.readable] in Hr.
    + destruct (Closures.is_nullish result) eqn:Hn;
        [destruct result; try discriminate Hn; reflexivity|].
      rewrite (getprop_ok _ _ Hn).
      destruct (Closures.is_nullish (get result "hits")) eqn:Hh;
        [destruct (get result "hits"); try discriminate Hh; reflexivity|].
      rewrite (getprop_ok _ _ Hh). cbn [negb andb] in Hr.
      destruct (get (get result "hits") "hits"); try reflexivity.
      rewrite documents_of_hits, Hr. reflexivity.
    + apply negb_false_iff in Hr. destruct result; try discriminate Hr; reflexivity.
    + apply negb_false_iff in Hr. destruct result; try discriminate Hr; reflexivity.
    + destruct (String.eqb action "delete"); apply negb_false_iff in Hr.
      * destruct data; try discriminate Hr; reflexivity.
      * destruct result; try discriminate Hr; reflexivity.
    + apply negb_false_iff in Hr. destruct result; try discriminate Hr; reflexivity.
Qed.

End Documents.

Section HeadersInUse.
Context `{Collaborators}.

Lemma is_collection_after_setHeaders (w : world) (this : loc) (c : collection_obj)
  (s : session_obj) (hs fs : list (string * value)) (replace : value) :
  is_collection w this c s hs ->
  exists w1 c1,
    setHeaders this (VObj fs) replace w = Ok (RObj this, w1)
    /\ kuzzle c1 = kuzzle c
    /\ is_collection w1 this c1 s
         (if truthy replace then fs
          else fold_left (fun acc p => set_field (fst p) (snd p) acc) fs hs).
Proof.
  intros Hw. pose proof (setHeaders_result w this c s hs fs replace Hw) as E.
  destruct Hw as (Hc & Hk & Hh).
  destruct (truthy replace).
  - cbn zeta in E. set (h := fresh (dom (heap w))) in *.
    assert (Hfh : heap w !! h = None) by apply fresh_unused.
    eexists _, (Collection (collection c) (kuzzle c) h (own_methods c)).
    split; [exact E|]. split; [reflexivity|].
    unfold is_collection. cbn [heap set_heap kuzzle headers].
    split; [apply lookup_insert_eq|].
    split; [rewrite !lookup_insert_ne by congruence; exact Hk|].
    rewrite lookup_insert_ne by congruence. apply lookup_insert_eq.
  - eexists _, c. split; [exact E|]. split; [reflexivity|].
    unfold is_collection. cbn [heap set_heap].
    split; [rewrite lookup_insert_ne by congruence; exact Hc|].
    split; [rewrite lookup_insert_ne by congruence; exact Hk|].
    apply lookup_insert_eq.
Qed.

(** X11.  The headers set on a collection are the headers of its next
    request, and of no other collection's: after [setHeaders(content,
    replace)] the next request of the collection attaches the content (with
    [replace]) or the old headers updated and extended by the content
    (without), while every other collection still attaches its own. *)
Theorem headers_set_are_headers_sent (w : world) (this : loc) (c : collection_obj)
  (s : session_obj) (hs fs : list (string * value)) (replace : value) :
  own_headers w ->
  is_collection w this c s hs ->
  exists w1,
    setHeaders this (VObj fs) replace w = Ok (RObj this, w1)
    /\ (forall o,
          Calls.dispatches o = true -> Calls.callback_given o = true ->
          exists q data w2,
            invoke this o w1 = Ok (RObj this, w2)
            /\ queries w2 = queries w ++ [(kuzzle c, q)]
            /\ q_query q
               = addHeaders data
                   (VObj (if truthy replace then fs
                          else fold_left (fun acc p => set_field (fst p) (snd p) acc)
                                         fs hs)))
    /\ (forall l c2 s2 hs2 o,
          l <> this ->
          is_collection w l c2 s2 hs2 ->
          Calls.dispatches o = true -> Calls.callback_given o = true ->
          exists q data w2,
            invoke l o w1 = Ok (RObj l, w2)
            /\ q_query q = addHeaders data (VObj hs2)
            /\ queries w2 = queries w ++ [(kuzzle c2, q)]).
Proof.
  intros Hown Hw.
  destruct (is_collection_after_setHeaders w this c s hs fs replace Hw)
    as (w1 & c1 & E & Hk1 & Hw1).
  exists w1. split; [exact E|].
  destruct (setHeaders_frame w w1 this c (VObj fs) replace (RObj this) Hown
              (proj1 Hw) E)
    as (_ & _ & _ & Hsess & Hothers & Hq & _).
  split.
  - intros o Ho Hg.
    destruct (request_sent w1 this c1 s _ o Hw1 Ho Hg)
      as (q & data & w2 & Hi & Hqs & _ & _ & Hquery & _).
    exists q, data, w2. rewrite Hqs, Hq, Hk1. auto.
  - intros l c2 s2 hs2 o Hl (Hc2 & Hk2 & Hh2) Ho Hg.
    destruct (Hothers l c2 Hl Hc2) as [Hc2' Hh2'].
    destruct (Hsess _ _ Hk2) as [Hk2' _].
    assert (Hw2 : is_collection w1 l c2 s2 hs2).
    { unfold is_collection. rewrite Hc2', Hk2', Hh2'. auto. }
    destruct (request_sent w1 l c2 s2 hs2 o Hw2 Ho Hg)
      as (q & data & w2 & Hi & Hqs & _ & _ & Hquery & _).
    exists q, data, w2. rewrite Hqs, Hq. auto.
Qed.

(** X12.  The headers of a collection are a snapshot of the session's
    headers taken by the constructor: whatever the session's headers object
    holds later, the requests of the collection attach the copy made when it
    was constructed. *)
Theorem headers_are_a_snapshot (w : world) (k : loc) (s : session_obj)
  (hs : list (string * value)) (name : value) :
  own_headers w ->
  heap w !! k = Some (CKuzzle s) ->
  heap w !! k_headers s = Some (CPlain hs) ->
  exists this w1 c,
    new k name w = Ok (this, w1)
    /\ is_collection w1 this c s (JSON.copy_fields hs)
    /\ forall later o,
         Calls.dispatches o = true -> Calls.callback_given o = true ->
         exists q data w2,
           invoke this o (set_heap (<[k_headers s := CPlain later]> (heap w1)) w1)
           = Ok (RObj this, w2)
           /\ q_collection q = name
           /\ queries w2 = queries w ++ [(k, q)]
           /\ q_query q = addHeaders data (VObj (JSON.copy_fields hs)).
Proof.
  intros Hown Hk Hh.
  destruct (new_keeps_own_headers w k s hs name Hown Hk Hh)
    as (this & w1 & c & Hnew & _ & Hc & Hname & Hkc & Hfresh & Hfh & Hne & Hcopy & _
        & Hframe).
  assert (Hq1 : queries w1 = queries w).
  { pose proof (new_result k name w s hs Hk Hh) as E. cbn zeta in E.
    rewrite E in Hnew. injection Hnew as _ <-. reflexivity. }
  assert (Hthis_k : this <> k) by congruence.
  assert (Hthis_h : this <> k_headers s) by congruence.
  assert (Hk_h : k <> headers c) by congruence.
  assert (Hk_kh : k <> k_headers s) by congruence.
  assert (Hk1 : heap w1 !! k = Some (CKuzzle s)) by (rewrite Hframe; auto).
  exists this, w1, c. split; [exact Hnew|]. split.
  { unfold is_collection. rewrite Hkc. auto. }
  intros later o Ho Hg.
  assert (Hw2 : is_collection (set_heap (<[k_headers s := CPlain later]> (heap w1)) w1)
                  this c s (JSON.copy_fields hs)).
  { unfold is_collection. cbn [heap set_heap]. rewrite Hkc.
    rewrite !lookup_insert_ne by congruence. auto. }
  destruct (request_sent _ this c s _ o Hw2 Ho Hg)
    as (q & data & w2 & Hi & Hqs & _ & Hcoll & Hquery & _).
  exists q, data, w2. cbn [queries set_heap] in Hqs.
  rewrite Hqs, Hq1, Hkc, Hcoll, Hname. auto.
Qed.

End HeadersInUse.

Section Script.
Import DocScript.

Lemma commands_of_app (xs ys : list event) :
  commands_of (xs ++ ys) = commands_of xs ++ commands_of ys.
Proof.
  induction xs as [|[l|c] xs IH]; cbn; [reflexivity | exact IH | now rewrite IH].
Qed.

(** What [run_all] leaves: the commands up to the first failure, run in
    order after the events so far. *)
Lemma run_all_spec (m : machine) (cs : list (list string)) (done : list event) :
  succeeded m done ->
  match run_all m cs done with
  | (events, None) =>
      succeeded m events /\ commands_of events = commands_of done ++ cs
  | (events, Some n) =>
      exists pre c later,
        events = pre ++ [Run c] /\ succeeded m pre /\ status m pre c = n /\ n <> 0
        /\ commands_of done ++ cs = commands_of events ++ later
  end.
Proof.
  revert done.
  induction cs as [|c cs IH]; intros done Hdone; cbn.
  - split; [exact Hdone | now rewrite app_nil_r].
  - destruct (status m done c) as [|n] eqn:Hs.
    + specialize (IH (done ++ [Run c]) (succeeded_run m done c Hdone Hs)).
      rewrite commands_of_app in IH. cbn in IH. rewrite <- app_assoc in IH.
      exact IH.
    + exists done, c, cs. repeat split; auto.
      rewrite commands_of_app. cbn. now rewrite <- app_assoc.
Qed.

(** The outcome of a list of commands followed by the end of the script. *)
Lemma finish_spec (m : machine) (cs : list (list string)) (done events : list event)
  (e : ending) :
  succeeded m done ->
  finish (run_all m cs done) = (events, e) ->
  (succeeded m events /\ e = Exit 0 /\ commands_of events = commands_of done ++ cs)
  \/ (exists pre c later,
        events = pre ++ [Run c] /\ succeeded m pre /\ status m pre c <> 0
        /\ e = Exit (status m pre c)
        /\ commands_of done ++ cs = commands_of events ++ later).
Proof.
  intros Hdone E. pose proof (run_all_spec m cs done Hdone) as H.
  destruct (run_all m cs done) as [evs [n|]]; cbn in E; simplify_eq.
  - right. destruct H as (pre & c & later & -> & Hpre & Hs & Hn & Hc).
    exists pre, c, later. subst n. repeat split; auto.
  - left. destruct H as [H1 H2]. repeat split; auto.
Qed.

Lemma succeeded_one_echo (m : machine) (line : string) : succeeded m [Echo line].
Proof. exact (succeeded_echo m [] line (succeeded_nil m)). Qed.

(** X14: the script runs under [set -e]. Either every command it ran
    returned 0, and then it ends with status 0 unless it ran no command at
    all; or the last thing it did was to run a command that failed, every
    command before that one returned 0, and the script ends with the status
    of the one that failed. *)
Theorem script_stops_at_first_failure (m : machine) (name : string)
  (args : list string) (events : list event) (e : ending) :
  script m name args = (events, e) ->
  (succeeded m events /\ (e = Exit 0 \/ commands_of events = []))
  \/ (exists pre c,
        events = pre ++ [Run c] /\ succeeded m pre /\ status m pre c <> 0
        /\ e = Exit (status m pre c)).
Proof.
  assert (Hfin : forall cs done,
             succeeded m done ->
             finish (run_all m cs done) = (events, e) ->
             (succeeded m events /\ (e = Exit 0 \/ commands_of events = []))
             \/ (exists pre c,
                    events = pre ++ [Run c] /\ succeeded m pre /\ status m pre c <> 0
                    /\ e = Exit (status m pre c))).
  { intros cs done Hdone E.
    destruct (finish_spec m cs done events e Hdone E)
      as [(H1 & H2 & _)|(pre & c & later & H1 & H2 & H3 & H4 & _)].
    - left. auto.
    - right. exists pre, c. auto. }
  unfold script. intros E.
  destruct (is_directory m _); cbn [negb] in E.
  2:{ simplify_eq. left. split; [apply succeeded_one_echo | now right]. }
  destruct args as [|command rest].
  { simplify_eq. left. split; [constructor | now right]. }
  destruct (String.eqb command "prepare").
  { pose proof (run_all_spec m [git_clone; git_pull]
                  [Echo "Clone documentation framework"] (succeeded_one_echo m _)) as H.
    destruct (run_all m [git_clone; git_pull] _) as [evs [n|]].
    - simplify_eq. right.
      destruct H as (pre & c & later & -> & Hpre & Hs & Hn & _).
      exists pre, c. subst n. auto.
    - destruct H as [H _].
      exact (Hfin _ _ (succeeded_echo m evs _ H) E). }
  destruct (String.eqb command "dev"); [exact (Hfin _ _ (succeeded_nil m) E)|].
  destruct (String.eqb command "build"); [exact (Hfin _ _ (succeeded_nil m) E)|].
  destruct (String.eqb command "upload").
  { destruct (getenv m "S3_BUCKET").
    - exact (Hfin _ _ (succeeded_nil m) E).
    - simplify_eq. left. split; [constructor | now right]. }
  destruct (String.eqb command "cloudfront").
  { destruct (getenv m "CLOUDFRONT_DISTRIBUTION_ID").
    - exact (Hfin _ _ (succeeded_nil m) E).
    - simplify_eq. left. split; [constructor | now right]. }
  simplify_eq. left. split; [apply succeeded_one_echo | now right].
Qed.

Lemma known_prefix (cs ran later : list (list string)) :
  Forall known cs -> cs = ran ++ later -> Forall known ran.
Proof. intros H ->. now apply Forall_app in H. Qed.

Lemma finish_known (m : machine) (cs : list (list string)) (done events : list event)
  (e : ending) :
  succeeded m done ->
  Forall known (commands_of done ++ cs) ->
  finish (run_all m cs done) = (events, e) ->
  Forall known (commands_of events).
Proof.
  intros Hdone Hk E.
  destruct (finish_spec m cs done events e Hdone E)
    as [(_ & _ & H)|(pre & c & later & _ & _ & _ & _ & H)].
  - now rewrite H.
  - exact (known_prefix _ _ later Hk H).
Qed.

Lemma known_program (p : string) (ws : list string) :
  p ∈ programs -> known (p :: ws).
Proof. intros H. exists p. now split. Qed.

Ltac member := repeat first [apply list_elem_of_here | apply list_elem_of_further].

Ltac knowns :=
  cbn [app]; unfold git_clone, git_pull, npm_install;
  repeat (apply List.Forall_cons; [apply known_program; assumption|]);
  apply List.Forall_nil.

(** X15: the script runs an external command only from the directory that
    holds [5/] and only when its first argument is one of the five
    subcommands; every command it runs is one of git, npm, vuepress and
    aws. *)
Theorem script_runs_only_what_is_asked (m : machine) (name : string)
  (args : list string) (events : list event) (e : ending) :
  script m name args = (events, e) ->
  commands_of events <> [] ->
  is_directory m "./5" = true
  /\ (exists command rest, args = command :: rest /\ command ∈ subcommands)
  /\ Forall known (commands_of events).
Proof.
  unfold script. intros E Hrun.
  change (String.append "./" DOC_DIR) with "./5" in E.
  destruct (is_directory m "./5"); cbn [negb] in E.
  2:{ exfalso. injection E as <- <-. now cbn in Hrun. }
  split; [reflexivity|].
  destruct args as [|command rest].
  { exfalso. injection E as <- <-. now cbn in Hrun. }
  assert (Hgit : "git" ∈ programs) by (unfold programs; member).
  assert (Hnpm : "npm" ∈ programs) by (unfold programs; member).
  assert (Hvue : vuepress ∈ programs) by (unfold programs; member).
  assert (Haws : "aws" ∈ programs) by (unfold programs; member).
  destruct (String.eqb_spec command "prepare") as [->|_].
  { split; [exists "prepare", rest; split; [reflexivity | unfold subcommands; member]|].
    pose proof (run_all_spec m [git_clone; git_pull]
                  [Echo "Clone documentation framework"] (succeeded_one_echo m _)) as H.
    assert (Hk : Forall known [git_clone; git_pull]) by knowns.
    destruct (run_all m [git_clone; git_pull] _) as [evs [n|]].
    - simplify_eq.
      destruct H as (pre & c & later & -> & _ & _ & _ & H).
      exact (known_prefix _ _ later Hk H).
    - destruct H as [H1 H2]. cbn in H2.
      refine (finish_known m _ _ events e (succeeded_echo m evs _ H1) _ E).
      rewrite commands_of_app, H2. cbn [commands_of app].
      knowns. }
  destruct (String.eqb_spec command "dev") as [->|_].
  { split; [exists "dev", rest; split; [reflexivity | unfold subcommands; member]|].
    refine (finish_known m _ _ events e (succeeded_nil m) _ E).
    knowns. }
  destruct (String.eqb_spec command "build") as [->|_].
  { split; [exists "build", rest; split; [reflexivity | unfold subcommands; member]|].
    refine (finish_known m _ _ events e (succeeded_nil m) _ E).
    knowns. }
  destruct (String.eqb_spec command "upload") as [->|_].
  { split; [exists "upload", rest; split; [reflexivity | unfold subcommands; member]|].
    destruct (getenv m "S3_BUCKET"); [|exfalso; injection E as <- <-; now cbn in Hrun].
    refine (finish_known m _ _ events e (succeeded_nil m) _ E).
    knowns. }
  destruct (String.eqb_spec command "cloudfront") as [->|_].
  { split; [exists "cloudfront", rest; split; [reflexivity | unfold subcommands; member]|].
    destruct (getenv m "CLOUDFRONT_DISTRIBUTION_ID"); [|exfalso; injection E as <- <-; now cbn in Hrun].
    refine (finish_known m _ _ events e (succeeded_nil m) _ E).
    knowns. }
  exfalso. injection E as <- <-. now cbn in Hrun.
Qed.

(** X16: [prepare] runs git clone, git pull and npm install in this
    order and stops at the first that fails: the commands run are a prefix
    of the three, status 0 means all three were run, and npm install is run
    only after both git commands returned 0. *)
Theorem prepare_in_order (m : machine) (name : string) (rest : list string)
  (events : list event) (e : ending) :
  is_directory m "./5" = true ->
  script m name ("prepare" :: rest) = (events, e) ->
  (exists later, [git_clone; git_pull; npm_install] = commands_of events ++ later)
  /\ (e = Exit 0 -> commands_of events = [git_clone; git_pull; npm_install])
  /\ (npm_install ∈ commands_of events ->
      exists pre,
        events = pre ++ [Run npm_install] /\ succeeded m pre
        /\ commands_of pre = [git_clone; git_pull]).
Proof.
  intros Hdir E. unfold script in E.
  change (String.append "./" DOC_DIR) with "./5" in E.
  rewrite Hdir in E. cbn [negb String.eqb Ascii.eqb Bool.eqb] in E.
  cbn [run_all] in E.
  assert (Hnot1 : npm_install ∈ [git_clone] -> False).
  { intros H. apply list_elem_of_singleton in H. discriminate H. }
  assert (Hnot2 : npm_install ∈ [git_clone; git_pull] -> False).
  { intros H. apply elem_of_cons in H as [H|H]; [discriminate H|].
    apply list_elem_of_singleton in H. discriminate H. }
  destruct (status m [Echo "Clone documentation framework"] git_clone) as [|n1] eqn:H1.
  2:{ simplify_eq. cbn. split; [eexists; reflexivity|].
      split; [discriminate|]. intros H. destruct (Hnot1 H). }
  cbn [app] in E.
  destruct (status m [Echo "Clone documentation framework"; Run git_clone] git_pull)
    as [|n2] eqn:H2.
  2:{ simplify_eq. cbn. split; [eexists; reflexivity|].
      split; [discriminate|]. intros H. destruct (Hnot2 H). }
  cbn [app run_all] in E.
  assert (Hpre : succeeded m [Echo "Clone documentation framework"; Run git_clone;
                              Run git_pull; Echo "Install dependencies"]).
  { apply (succeeded_echo m [_; _; _]).
    apply (succeeded_run m [_; _]); [|exact H2].
    apply (succeeded_run m [_]); [|exact H1].
    apply succeeded_one_echo. }
  assert (Hev : events = [Echo "Clone documentation framework"; Run git_clone;
                           Run git_pull; Echo "Install dependencies"]
                          ++ [Run npm_install]).
  { destruct (status m _ npm_install); cbn in E; now simplify_eq. }
  split; [exists []; now rewrite Hev|].
  split; [intros _; now rewrite Hev|].
  intros _. eexists. split; [exact Hev|]. split; [exact Hpre | reflexivity].
Qed.

(** X17: the script reads its first two arguments only: the subcommand
    and one word of options; what follows them changes nothing. *)
Theorem script_reads_two_arguments (m : machine) (name : string) (args : list string) :
  script m name args = script m name (take 2 args).
Proof.
  destruct args as [|a [|b rest]]; reflexivity.
Qed.

(** X18: when the script is aborted for a variable that is not set, it has
    done nothing yet: no line written, no command run.  The variable is the
    first argument, or the one of S3_BUCKET and CLOUDFRONT_DISTRIBUTION_ID
    that the subcommand given needs and the environment does not have. *)
Theorem script_unset_variable (m : machine) (name : string) (args : list string)
  (events : list event) (variable : string) :
  script m name args = (events, Unbound variable) ->
  events = []
  /\ is_directory m "./5" = true
  /\ ((variable = "1" /\ args = [])
      \/ (getenv m variable = None
          /\ ((variable = "S3_BUCKET" /\ head args = Some "upload")
              \/ (variable = "CLOUDFRONT_DISTRIBUTION_ID"
                  /\ head args = Some "cloudfront")))).
Proof.
  assert (Hfin : forall r, finish r = (events, Unbound variable) -> False).
  { intros [evs [n|]] H; cbn in H; discriminate H. }
  unfold script. intros E.
  change (String.append "./" DOC_DIR) with "./5" in E.
  destruct (is_directory m "./5"); cbn [negb] in E; [|discriminate E].
  destruct args as [|command rest].
  { simplify_eq. auto. }
  destruct (String.eqb_spec command "prepare") as [->|_].
  { destruct (run_all m [git_clone; git_pull] _) as [evs [n|]]; [discriminate E|].
    destruct (Hfin _ E). }
  destruct (String.eqb_spec command "dev") as [->|_]; [destruct (Hfin _ E)|].
  destruct (String.eqb_spec command "build") as [->|_]; [destruct (Hfin _ E)|].
  destruct (String.eqb_spec command "upload") as [->|_].
  { destruct (getenv m "S3_BUCKET") eqn:Hb; [destruct (Hfin _ E)|].
    simplify_eq. repeat split; auto. }
  destruct (String.eqb_spec command "cloudfront") as [->|_].
  { destruct (getenv m "CLOUDFRONT_DISTRIBUTION_ID") eqn:Hb; [destruct (Hfin _ E)|].
    simplify_eq. repeat split; auto. }
  discriminate E.
Qed.

End Script.

(** ** The further properties at sample inputs *)

Lemma books_own_headers : own_headers Sample.books.
Proof.
  destruct (new_keeps_own_headers (H := Sample.collaborators)
              (Sample.session VUndef) 1%positive Sample.kuzzle Sample.token
              (VStr "books") (session_own_headers VUndef) eq_refl eq_refl)
    as (this & w1 & c & E & Hown & _).
  vm_compute in E. injection E as _ <-. exact Hown.
Qed.

Lemma getRoles_without_policies_witness :
  (truthy (get (VObj [("rateLimit", VNum 5)]) "policies") = false
   \/ get (VObj [("rateLimit", VNum 5)]) "policies" = VArr [])
  /\ exists p,
      Profile.new Examples.security (VStr "guest") (VObj [("rateLimit", VNum 5)]) = Ok p
      /\ ProfileRoles.getRoles p VUndef = Some (Ok (ProfileRoles.Resolved (VArr []))).
Proof.
  split; [left; reflexivity|].
  apply (getRoles_without_policies Examples.security (VStr "guest")
           (VObj [("rateLimit", VNum 5)]) VUndef).
  left. reflexivity.
Defined.

Lemma getRoles_requests_role_ids_witness :
  exists p,
    Profile.new Examples.security (VStr "editor") Examples.editor = Ok p
    /\ ProfileRoles.getRoles p VUndef
       = Some (Ok (ProfileRoles.ReturnedBy 3
                     [VArr [VStr "reader"; VStr "writer"]; VObj []])).
Proof.
  apply (getRoles_requests_role_ids Examples.security (VStr "editor") Examples.editor
           VUndef [VObj [("roleId", VStr "reader")]; VObj [("roleId", VStr "writer")]] 3).
  - reflexivity.
  - discriminate.
  - reflexivity.
Defined.

Lemma callback_is_required_witness :
  is_collection Sample.books 4%positive Sample.books_collection Sample.kuzzle
                Sample.token
  /\ invoke (H := Sample.collaborators) 4%positive
            (FetchDocument (VStr "doc1") (VObj []) VUndef) Sample.books
     = Throw (Error "KuzzleDataCollection.fetch").
Proof.
  split; [exact books_is_collection|].
  apply (callback_is_required (H := Sample.collaborators) Sample.books 4%positive
           Sample.books_collection Sample.kuzzle Sample.token
           (FetchDocument (VStr "doc1") (VObj []) VUndef)
           "KuzzleDataCollection.fetch" VUndef books_is_collection).
  - reflexivity.
  - reflexivity.
Defined.

Lemma one_request_per_call_witness :
  is_collection Sample.books 4%positive Sample.books_collection Sample.kuzzle
                Sample.token
  /\ exists q data w',
      invoke (H := Sample.collaborators) 4%positive
             (Count (VObj []) (VFun 7) VUndef) Sample.books
      = Ok (RObj 4%positive, w')
      /\ queries w' = queries Sample.books ++ [(1%positive, q)]
      /\ q_collection q = VStr "books"
      /\ q_query q = addHeaders (Collaborators := Sample.collaborators) data
                                (VObj Sample.token)
      /\ heap w' = heap Sample.books.
Proof.
  split; [exact books_is_collection|].
  destruct (one_request_per_call (H := Sample.collaborators) Sample.books 4%positive
              Sample.books_collection Sample.kuzzle Sample.token
              (Count (VObj []) (VFun 7) VUndef) books_is_collection eq_refl eq_refl)
    as (q & data & w' & Hi & Hq & _ & Hc & Hd & _ & Hh & _).
  exists q, data, w'. auto.
Defined.

Lemma search_documents_witness :
  exists ds,
    Closures.run_callback (H := Sample.collaborators) (CbSearch 4%positive (VFun 7))
                          VNull Examples.found
    = Ok [Invoke 7 [VNull; VObj [("total", VNum 2); ("documents", VArr ds)]]]
    /\ List.length ds = 2.
Proof.
  destruct (search_documents (H := Sample.collaborators) 4%positive 7 VNull
              Examples.found
              [VObj [("_id", VStr "a")];
               VObj [("_id", VStr "b"); ("_source", VObj [("title", VStr "x")])]]
              eq_refl eq_refl eq_refl eq_refl)
    as (ds & Hr & Hl & _).
  exists ds. split; [exact Hr | exact Hl].
Defined.

Lemma unreadable_response_throws_witness :
  (exists args,
      Closures.run_callback (H := Sample.collaborators) (CbCount (VFun 7)) VNull
                            (VObj [("count", VNum 3)])
      = Ok [Invoke 7 args])
  /\ Closures.run_callback (H := Sample.collaborators) (CbCount (VFun 7)) VNull VUndef
     = Throw TypeError.
Proof.
  split.
  - destruct (unreadable_response_throws (H := Sample.collaborators) (CbCount (VFun 7))
                7 VNull (VObj [("count", VNum 3)]) eq_refl)
      as [Hcalled _].
    apply Hcalled. right. reflexivity.
  - destruct (unreadable_response_throws (H := Sample.collaborators) (CbCount (VFun 7))
                7 VNull VUndef eq_refl)
      as [_ Hthrown].
    apply Hthrown; reflexivity.
Defined.

Lemma headers_set_are_headers_sent_witness :
  own_headers Sample.books
  /\ is_collection Sample.books 4%positive Sample.books_collection Sample.kuzzle
                   Sample.token
  /\ exists w1 q data w2,
      setHeaders 4%positive (VObj [("lang", VStr "fr")]) (VBool true) Sample.books
      = Ok (RObj 4%positive, w1)
      /\ invoke (H := Sample.collaborators) 4%positive
                (Count (VObj []) (VFun 7) VUndef) w1
         = Ok (RObj 4%positive, w2)
      /\ queries w2 = queries Sample.books ++ [(1%positive, q)]
      /\ q_query q = addHeaders (Collaborators := Sample.collaborators) data
                                (VObj [("lang", VStr "fr")]).
Proof.
  split; [exact books_own_headers|]. split; [exact books_is_collection|].
  destruct (headers_set_are_headers_sent (H := Sample.collaborators) Sample.books
              4%positive Sample.books_collection Sample.kuzzle Sample.token
              [("lang", VStr "fr")] (VBool true) books_own_headers books_is_collection)
    as (w1 & Hs & Hnext & _).
  destruct (Hnext (Count (VObj []) (VFun 7) VUndef) eq_refl eq_refl)
    as (q & data & w2 & Hi & Hq & Hd).
  exists w1, q, data, w2. auto.
Defined.

Lemma headers_are_a_snapshot_witness :
  own_headers (Sample.session VUndef)
  /\ exists this w1 q data w2,
      new (H := Sample.collaborators) 1%positive (VStr "books") (Sample.session VUndef)
      = Ok (this, w1)
      /\ invoke (H := Sample.collaborators) this (Count (VObj []) (VFun 7) VUndef)
                (set_heap (<[2%positive := CPlain []]> (heap w1)) w1)
         = Ok (RObj this, w2)
      /\ q_collection q = VStr "books"
      /\ q_query q = addHeaders (Collaborators := Sample.collaborators) data
                                (VObj Sample.token).
Proof.
  split; [exact (session_own_headers VUndef)|].
  destruct (headers_are_a_snapshot (H := Sample.collaborators) (Sample.session VUndef)
              1%positive Sample.kuzzle Sample.token (VStr "books")
              (session_own_headers VUndef) eq_refl eq_refl)
    as (this & w1 & c & Hn & _ & Hnext).
  destruct (Hnext [] (Count (VObj []) (VFun 7) VUndef) eq_refl eq_refl)
    as (q & data & w2 & Hi & Hc & _ & Hd).
  exists this, w1, q, data, w2. auto.
Defined.

Lemma script_stops_at_first_failure_witness :
  DocScript.script Examples.machine "doc.sh" ["prepare"]
  = ([DocScript.Echo "Clone documentation framework";
      DocScript.Run DocScript.git_clone; DocScript.Run DocScript.git_pull],
     DocScript.Exit 128)
  /\ ((DocScript.succeeded Examples.machine
         [DocScript.Echo "Clone documentation framework";
          DocScript.Run DocScript.git_clone; DocScript.Run DocScript.git_pull]
       /\ (DocScript.Exit 128 = DocScript.Exit 0
           \/ DocScript.commands_of
                [DocScript.Echo "Clone documentation framework";
                 DocScript.Run DocScript.git_clone; DocScript.Run DocScript.git_pull]
              = []))
      \/ exists pre c,
          [DocScript.Echo "Clone documentation framework";
           DocScript.Run DocScript.git_clone; DocScript.Run DocScript.git_pull]
          = pre ++ [DocScript.Run c]
          /\ DocScript.succeeded Examples.machine pre
          /\ DocScript.status Examples.machine pre c <> 0
          /\ DocScript.Exit 128 = DocScript.Exit (DocScript.status Examples.machine pre c)).
Proof.
  split; [reflexivity|].
  apply (script_stops_at_first_failure Examples.machine "doc.sh" ["prepare"]).
  reflexivity.
Defined.

Lemma script_runs_only_what_is_asked_witness :
  DocScript.script Examples.machine "doc.sh" ["build"; "--no-cache"]
  = ([DocScript.Run [DocScript.vuepress; "build"; "5/"; "--no-cache"]], DocScript.Exit 0)
  /\ DocScript.is_directory Examples.machine "./5" = true
  /\ (exists command rest,
         ["build"; "--no-cache"] = command :: rest /\ command ∈ DocScript.subcommands)
  /\ Forall DocScript.known
            (DocScript.commands_of
               [DocScript.Run [DocScript.vuepress; "build"; "5/"; "--no-cache"]]).
Proof.
  split; [reflexivity|].
  apply (script_runs_only_what_is_asked Examples.machine "doc.sh"
           ["build"; "--no-cache"] _ (DocScript.Exit 0)).
  - reflexivity.
  - discriminate.
Defined.

Lemma prepare_in_order_witness :
  DocScript.is_directory Examples.machine "./5" = true
  /\ exists events e,
      DocScript.script Examples.machine "doc.sh" ["prepare"] = (events, e)
      /\ (exists later,
             [DocScript.git_clone; DocScript.git_pull; DocScript.npm_install]
             = DocScript.commands_of events ++ later)
      /\ (e = DocScript.Exit 0 ->
          DocScript.commands_of events
          = [DocScript.git_clone; DocScript.git_pull; DocScript.npm_install]).
Proof.
  split; [reflexivity|].
  eexists _, _. split; [reflexivity|].
  destruct (prepare_in_order Examples.machine "doc.sh" [] _ _ eq_refl eq_refl)
    as (Hprefix & Hall & _).
  split; [exact Hprefix | exact Hall].
Defined.

Lemma script_unset_variable_witness :
  DocScript.script Examples.machine "doc.sh" ["cloudfront"]
  = ([], DocScript.Unbound "CLOUDFRONT_DISTRIBUTION_ID")
  /\ DocScript.getenv Examples.machine "CLOUDFRONT_DISTRIBUTION_ID" = None.
Proof.
  split; [reflexivity|].
  destruct (script_unset_variable Examples.machine "doc.sh" ["cloudfront"] []
              "CLOUDFRONT_DISTRIBUTION_ID" eq_refl)
    as (_ & _ & [[Hone _]|[Hnone _]]).
  - discriminate Hone.
  - exact Hnone.
Defined.
